(** * piTelex: the i-Telex server device (txDevITelexSrv.py)

    A shallow embedding of class [TelexITelexSrv]: the call acceptor, the
    session handler, the TNS client ([update_tns_record]), the self-test
    prober ([test_connection]) and the registration/self-test scheduler
    ([thread_handle_tns_update]), followed by the properties the
    specification states about them.

    Python integers are [Z], [bytes] objects are [list byte], [str] objects
    are [string], the dictionary [self.clients] is a [gmap] keyed by socket
    identity.  Exceptions are explicit ([result]); the network and the
    timing of the other threads are inputs of the functions. *)

From Stdlib Require Import ZArith Strings.Byte DecimalString DecimalN.
From stdpp Require Import gmap strings list.

Local Open Scope Z_scope.

(** ** Python values and exceptions *)

Inductive exn :=
| TypeError | AttributeError | OverflowError | ValueError | IndexError
| OSError | Exception.

Inductive result (A : Type) :=
| Ok (a : A)
| Raise (e : exn).
Arguments Ok {A} a.
Arguments Raise {A} e.

#[global] Instance result_ret : MRet result := fun _ a => Ok a.
#[global] Instance result_bind : MBind result := fun _ _ f m =>
  match m with Ok a => f a | Raise e => Raise e end.

#[global] Instance byte_eq_dec : EqDecision byte := Byte.byte_eq_dec.

(** [data[i]] on a bytes object: IndexError past the end. *)
Definition index (data : list byte) (i : nat) : result byte :=
  match data !! i with
  | Some b => Ok b
  | None => Raise IndexError
  end.

(** [data[lo:hi]]: slices never raise. *)
Definition slice (data : list byte) (lo hi : nat) : list byte :=
  take (hi - lo)%nat (drop lo data).

Definition byte_of_N (n : N) : byte :=
  match Byte.of_N (n mod 256) with
  | Some b => b
  | None => x00
  end.

(** The bytes of [n], least significant first. *)
Fixpoint le_bytes (length : nat) (n : N) : list byte :=
  match length with
  | O => []
  | S l => byte_of_N n :: le_bytes l (n / 256)
  end.

(** [n.to_bytes(length=length, byteorder="little")]: unsigned, OverflowError
    for a negative [n] and for one that does not fit. *)
Definition to_bytes (n : Z) (length : nat) : result (list byte) :=
  if n <? 0 then Raise OverflowError
  else if 2 ^ (8 * Z.of_nat length) <=? n then Raise OverflowError
  else Ok (le_bytes length (Z.to_N n)).

(** [x.to_bytes(...)] where [x] may be [None]. *)
Definition attr_to_bytes (x : option Z) (length : nat) : result (list byte) :=
  match x with
  | None => Raise AttributeError
  | Some n => to_bytes n length
  end.

(** The inverse reading, used to state what the encoding means. *)
Fixpoint from_le_bytes (bs : list byte) : N :=
  match bs with
  | [] => 0%N
  | b :: r => (Byte.to_N b + 256 * from_le_bytes r)%N
  end.

(** [str(i)] for a byte value. *)
Definition str (b : byte) : string :=
  NilEmpty.string_of_uint (N.to_uint (Byte.to_N b)).

(** [sep.join(parts)] *)
Fixpoint join (sep : string) (parts : list string) : string :=
  match parts with
  | [] => ""
  | [p] => p
  | p :: r => p +:+ sep +:+ join sep r
  end.

(** [needle in hay] on strings: the substring test. *)
Fixpoint str_in (needle hay : string) : bool :=
  String.prefix needle hay ||
  match hay with
  | EmptyString => false
  | String _ hay' => str_in needle hay'
  end.

(** Truth value of an optional string attribute: [None] and [''] are false. *)
Definition truthy_str (x : option string) : bool :=
  match x with
  | None => false
  | Some s => negb (String.eqb s "")
  end.

(** Truth value of an optional integer attribute: [None] and [0] are false. *)
Definition truthy_int (x : option Z) : bool :=
  match x with
  | None => false
  | Some n => negb (n =? 0)
  end.

Definition ESC : Ascii.ascii := Ascii.ascii_of_nat 27.
Definition ESC_A : string := String ESC "A".
Definition ESC_Z : string := String ESC "Z".

(** ** Protocol constants *)

(**                              Code Len  Data ... *)
Definition selftest_packet : list byte := [x08; x04; xde; xca; xfb; xad].

(** ** The server object *)

(** A socket object is identified by the order in which it was created. *)
Definition sock := nat.
Definition address : Type := string * Z.

Inductive thread :=
| iTelexSaic
| iTelexShc (s : sock)
| iTelexTNSupd.

(** What the object does to its environment, in the order it happens. *)
Inductive event :=
| EvThreadStart (t : thread)
| EvSelftestSet
| EvSendReject (c : sock)
| EvClose (c : sock)
| EvDisconnectClient
| EvServerClose
| EvSleep (secs : Z)
| EvTnsQuery (qry : list byte)
| EvRegister (ok : bool)
| EvProbe (ok : bool).

#[global] Instance thread_eq_dec : EqDecision thread.
Proof. solve_decision. Defined.
#[global] Instance event_eq_dec : EqDecision event.
Proof. solve_decision. Defined.

(** Control point of the thread running [thread_handle_tns_update]. *)
Inductive sched_pc :=
| NotStarted
| LoopHead                       (* at [while self.run:] *)
| InnerLoop (remaining : nat)    (* at [for _ in range(180):] *)
| Returned.

(** Control point of the thread running
    [thread_srv_accept_incoming_connections]. *)
Inductive accept_pc :=
| Accepting
| AcceptReturned                 (* the loop saw [self.run] false *)
| AcceptRaised.                  (* [accept()] raised on the closed socket *)

Record TelexITelexSrv := mkSrv {
  _port : Z;
  _number : option Z;
  _tns_pin : option Z;
  run : bool;
  _run : option bool;            (* [None]: not assigned so far *)
  clients : gmap sock address;
  SERVER : bool;                 (* the listening socket is open *)
  _tx_buffer : list string;
  _rx_buffer : list string;
  update_tns_fail : Z;
  test_connection_fail : Z;
  ip_address : option string;
  selftest_event : bool;
  _tns_port : option Z;
  (* the environment of the object *)
  next_sock : sock;              (* identity of the next socket created *)
  sched : sched_pc;
  acceptor : accept_pc;
  log : list event
}.
(** Attribute assignment, one function per attribute that is assigned after
    construction. *)

Definition set__run (v : option bool) (s : TelexITelexSrv) : TelexITelexSrv :=
  mkSrv (_port s) (_number s) (_tns_pin s) (run s) v (clients s) (SERVER s)
    (_tx_buffer s) (_rx_buffer s) (update_tns_fail s)
    (test_connection_fail s) (ip_address s) (selftest_event s) (_tns_port s)
    (next_sock s) (sched s) (acceptor s) (log s).

Definition set_clients (v : gmap sock address) (s : TelexITelexSrv) : TelexITelexSrv :=
  mkSrv (_port s) (_number s) (_tns_pin s) (run s) (_run s) v (SERVER s)
    (_tx_buffer s) (_rx_buffer s) (update_tns_fail s)
    (test_connection_fail s) (ip_address s) (selftest_event s) (_tns_port s)
    (next_sock s) (sched s) (acceptor s) (log s).

Definition set_SERVER (v : bool) (s : TelexITelexSrv) : TelexITelexSrv :=
  mkSrv (_port s) (_number s) (_tns_pin s) (run s) (_run s) (clients s) v
    (_tx_buffer s) (_rx_buffer s) (update_tns_fail s)
    (test_connection_fail s) (ip_address s) (selftest_event s) (_tns_port s)
    (next_sock s) (sched s) (acceptor s) (log s).

Definition set__tx_buffer (v : list string) (s : TelexITelexSrv) : TelexITelexSrv :=
  mkSrv (_port s) (_number s) (_tns_pin s) (run s) (_run s) (clients s)
    (SERVER s) v (_rx_buffer s) (update_tns_fail s) (test_connection_fail s)
    (ip_address s) (selftest_event s) (_tns_port s) (next_sock s) (sched s)
    (acceptor s) (log s).

Definition set__rx_buffer (v : list string) (s : TelexITelexSrv) : TelexITelexSrv :=
  mkSrv (_port s) (_number s) (_tns_pin s) (run s) (_run s) (clients s)
    (SERVER s) (_tx_buffer s) v (update_tns_fail s) (test_connection_fail s)
    (ip_address s) (selftest_event s) (_tns_port s) (next_sock s) (sched s)
    (acceptor s) (log s).

Definition set_update_tns_fail (v : Z) (s : TelexITelexSrv) : TelexITelexSrv :=
  mkSrv (_port s) (_number s) (_tns_pin s) (run s) (_run s) (clients s)
    (SERVER s) (_tx_buffer s) (_rx_buffer s) v (test_connection_fail s)
    (ip_address s) (selftest_event s) (_tns_port s) (next_sock s) (sched s)
    (acceptor s) (log s).

Definition set_test_connection_fail (v : Z) (s : TelexITelexSrv) : TelexITelexSrv :=
  mkSrv (_port s) (_number s) (_tns_pin s) (run s) (_run s) (clients s)
    (SERVER s) (_tx_buffer s) (_rx_buffer s) (update_tns_fail s) v
    (ip_address s) (selftest_event s) (_tns_port s) (next_sock s) (sched s)
    (acceptor s) (log s).

Definition set_ip_address (v : option string) (s : TelexITelexSrv) : TelexITelexSrv :=
  mkSrv (_port s) (_number s) (_tns_pin s) (run s) (_run s) (clients s)
    (SERVER s) (_tx_buffer s) (_rx_buffer s) (update_tns_fail s)
    (test_connection_fail s) v (selftest_event s) (_tns_port s)
    (next_sock s) (sched s) (acceptor s) (log s).

Definition set_selftest_event (v : bool) (s : TelexITelexSrv) : TelexITelexSrv :=
  mkSrv (_port s) (_number s) (_tns_pin s) (run s) (_run s) (clients s)
    (SERVER s) (_tx_buffer s) (_rx_buffer s) (update_tns_fail s)
    (test_connection_fail s) (ip_address s) v (_tns_port s) (next_sock s)
    (sched s) (acceptor s) (log s).

Definition set__tns_port (v : option Z) (s : TelexITelexSrv) : TelexITelexSrv :=
  mkSrv (_port s) (_number s) (_tns_pin s) (run s) (_run s) (clients s)
    (SERVER s) (_tx_buffer s) (_rx_buffer s) (update_tns_fail s)
    (test_connection_fail s) (ip_address s) (selftest_event s) v
    (next_sock s) (sched s) (acceptor s) (log s).

Definition set_next_sock (v : sock) (s : TelexITelexSrv) : TelexITelexSrv :=
  mkSrv (_port s) (_number s) (_tns_pin s) (run s) (_run s) (clients s)
    (SERVER s) (_tx_buffer s) (_rx_buffer s) (update_tns_fail s)
    (test_connection_fail s) (ip_address s) (selftest_event s) (_tns_port s)
    v (sched s) (acceptor s) (log s).

Definition set_sched (v : sched_pc) (s : TelexITelexSrv) : TelexITelexSrv :=
  mkSrv (_port s) (_number s) (_tns_pin s) (run s) (_run s) (clients s)
    (SERVER s) (_tx_buffer s) (_rx_buffer s) (update_tns_fail s)
    (test_connection_fail s) (ip_address s) (selftest_event s) (_tns_port s)
    (next_sock s) v (acceptor s) (log s).

Definition set_acceptor (v : accept_pc) (s : TelexITelexSrv) : TelexITelexSrv :=
  mkSrv (_port s) (_number s) (_tns_pin s) (run s) (_run s) (clients s)
    (SERVER s) (_tx_buffer s) (_rx_buffer s) (update_tns_fail s)
    (test_connection_fail s) (ip_address s) (selftest_event s) (_tns_port s)
    (next_sock s) (sched s) v (log s).

Definition set_log (v : list event) (s : TelexITelexSrv) : TelexITelexSrv :=
  mkSrv (_port s) (_number s) (_tns_pin s) (run s) (_run s) (clients s)
    (SERVER s) (_tx_buffer s) (_rx_buffer s) (update_tns_fail s)
    (test_connection_fail s) (ip_address s) (selftest_event s) (_tns_port s)
    (next_sock s) (sched s) (acceptor s) v.
Definition emit (e : event) (s : TelexITelexSrv) : TelexITelexSrv :=
  set_log (log s ++ [e]) s.

(** The events [s'] has recorded beyond those of [s]. *)
Definition emitted (s s' : TelexITelexSrv) : list event :=
  drop (length (log s)) (log s').

(** ** The base class

    Class [TelexITelexCommon] (module txDevITelexCommon) is not among the
    sources at hand.  Its two methods that the server calls are recorded as
    the event of having been called. *)

(** Modelled from the spec: [disconnect_client] of the base class
    [TelexITelexCommon], which is missing; the specification says that it
    tears down the active call. *)
Definition disconnect_client (s : TelexITelexSrv) : TelexITelexSrv :=
  emit EvDisconnectClient s.

(** Modelled from the spec: [send_reject] of the base class
    [TelexITelexCommon], which is missing; the specification says that it
    sends the protocol's line-busy indication to the socket. *)
Definition send_reject (c : sock) (s : TelexITelexSrv) : TelexITelexSrv :=
  emit (EvSendReject c) s.

(** ** Construction: [__init__]

    The keyword arguments are the three values the constructor looks up,
    [None] for a key that is absent ([params.get]).  Python compares
    [None < 0] by raising TypeError.  The two buffers are those of the base
    class, empty at construction; binding and listening succeed. *)
Definition __init__ (port number tns_pin : option Z) : result TelexITelexSrv :=
  let port := default 2342 port in
  let number := default 0 number in
  let number :=
    if (number <=? 0) || (number >? 0xffffffff) then None else Some number in
  match tns_pin with
  | None => Raise TypeError
  | Some pin =>
      let '(number, tns_pin) :=
        if (pin <? 0) || (pin >? 0xffff) then (None, None)
        else (number, Some pin) in
      Ok {| _port := port;
            _number := number;
            _tns_pin := tns_pin;
            run := true;
            _run := None;
            clients := ∅;
            SERVER := true;
            _tx_buffer := [];
            _rx_buffer := [];
            update_tns_fail := 0;
            test_connection_fail := 0;
            ip_address := None;
            selftest_event := false;
            _tns_port := None;
            next_sock := O;
            sched := if truthy_int number then LoopHead else NotStarted;
            acceptor := Accepting;
            log := EvThreadStart iTelexSaic ::
                   (if truthy_int number then [EvThreadStart iTelexTNSupd]
                    else []) |}
  end.

(** ** [exit], [read], [write] *)

Definition exit (s : TelexITelexSrv) : TelexITelexSrv :=
  let s := disconnect_client s in
  let s := set__run (Some false) s in
  emit EvServerClose (set_SERVER false s).

Definition read (s : TelexITelexSrv) : option string * TelexITelexSrv :=
  match _rx_buffer s with
  | [] => (None, s)
  | a :: rest => (Some a, set__rx_buffer rest s)
  end.

Definition write (a source : string) (s : TelexITelexSrv) : TelexITelexSrv :=
  if negb (String.length a =? 1)%nat then
    if String.eqb a ESC_Z then disconnect_client s else s
  else if str_in source "<>" then s
  else set__tx_buffer (_tx_buffer s ++ [a]) s.

(** ** The call acceptor *)

(** An accepted connection: the peer's address and the bytes that are there
    to be read from it. *)
Record connection := mkConn {
  client_address : address;
  inbound : list byte
}.

(** [client.recv(bufsize)] *)
Definition recv (bufsize : nat) (c : connection) : list byte :=
  take bufsize (inbound c).

(** One turn of the loop of [thread_srv_accept_incoming_connections], from
    the return of [accept()] on. *)
Definition accept_connection (c : connection) (s : TelexITelexSrv)
  : TelexITelexSrv :=
  let client := next_sock s in
  let s := set_next_sock (S client) s in
  if decide (Some (fst (client_address c)) = ip_address s) then
    let data := recv 128 c in
    let s := if decide (data = selftest_packet)
             then emit EvSelftestSet (set_selftest_event true s) else s in
    emit (EvClose client) s
  else if decide (clients s = ∅) then
    let s := set_clients (<[client := client_address c]> (clients s)) s in
    let s := set__tx_buffer [] s in
    emit (EvThreadStart (iTelexShc client)) s
  else
    emit (EvClose client) (send_reject client s).

(** The loop head and [accept()]: the loop ends when [self.run] is false;
    [accept()] on a closed listening socket raises OSError, which nothing
    catches, so the thread ends. *)
Definition accept_turn (c : connection) (s : TelexITelexSrv) : TelexITelexSrv :=
  match acceptor s with
  | Accepting =>
      if run s then
        if SERVER s then accept_connection c s
        else set_acceptor AcceptRaised s
      else set_acceptor AcceptReturned s
  | _ => s
  end.

(** The whole loop, over the connections that arrive. *)
Fixpoint thread_srv_accept_incoming_connections
  (arriving : list connection) (s : TelexITelexSrv) : TelexITelexSrv :=
  match arriving with
  | [] => s
  | c :: rest => thread_srv_accept_incoming_connections rest (accept_turn c s)
  end.

(** ** The session handler: [thread_srv_handle_client]

    [process_connection] belongs to the base class and runs for the length
    of the call; the handler is therefore two steps, before and after it.
    [raised] tells whether [process_connection] ended with an exception.
    [del self.clients[s]] on a missing key raises KeyError and leaves the
    dictionary as it is, like [delete] does. *)
Definition handle_client_enter (c : sock) (s : TelexITelexSrv) : TelexITelexSrv :=
  set__rx_buffer (_rx_buffer s ++ [ESC_A]) s.

Definition handle_client_leave (c : sock) (raised : bool) (s : TelexITelexSrv)
  : TelexITelexSrv :=
  let s := if raised then disconnect_client s else s in
  let s := emit (EvClose c) s in
  let s := set__rx_buffer (_rx_buffer s ++ [ESC_Z]) s in
  set_clients (delete c (clients s)) s.

Definition thread_srv_handle_client (c : sock) (raised : bool)
  (s : TelexITelexSrv) : TelexITelexSrv :=
  handle_client_leave c raised (handle_client_enter c s).

(** ** The TNS client: [update_tns_record] *)

(** What the network does during one exchange with the TNS server. *)
Inductive tns_exchange :=
| TnsConnectFails                (* [connect] raises: refused, timed out *)
| TnsSendFails                   (* [sendall] raises *)
| TnsRecvFails                   (* [recv] raises: 3 s without an answer *)
| TnsAnswer (data : list byte).

(** The client_update packet, lines 278 to 287. *)
Definition client_update_packet (number tns_pin : option Z) (port : Z)
  : result (list byte) :=
  number ← attr_to_bytes number 4;
  tns_pin ← attr_to_bytes tns_pin 2;
  port ← to_bytes port 2;
  mret ([x01; x08] ++ number ++ tns_pin ++ port).

(** The evaluation of the answer, lines 291 to 302: the address on an
    Address_confirm of length 4, an exception on everything else. *)
Definition address_confirm (data : list byte) : result string :=
  code ← index data 0;
  if decide (code = x02) then
    len ← index data 1;
    if decide (len = x04) then mret (join "." (str <$> slice data 2 6))
    else Raise ValueError
  else
    msg_type ← index data 0;
    length ← index data 1;
    Raise Exception.

(** The body of the [try]. *)
Definition tns_attempt (x : tns_exchange) (s : TelexITelexSrv)
  : result string * TelexITelexSrv :=
  let s := set__tns_port (Some 11811) s in
  match x with
  | TnsConnectFails => (Raise OSError, s)
  | _ =>
      match client_update_packet (_number s) (_tns_pin s) (_port s) with
      | Raise e => (Raise e, s)
      | Ok qry =>
          match x with
          | TnsAnswer data => (address_confirm data, emit (EvTnsQuery qry) s)
          | TnsRecvFails => (Raise OSError, emit (EvTnsQuery qry) s)
          | _ => (Raise OSError, s)
          end
      end
  end.

Definition update_tns_record (x : tns_exchange) (s : TelexITelexSrv)
  : bool * TelexITelexSrv :=
  match tns_attempt x s with
  | (Ok ip, s) => (true, emit (EvRegister true) (set_ip_address (Some ip) s))
  | (Raise _, s) => (false, emit (EvRegister false) s)
  end.

(** ** The self-test prober: [test_connection] *)

(** What happens to one probe.  [confirmed] is the answer of
    [selftest_event.wait(timeout = 1.0)]: whether the acceptor thread set
    the event within the second. *)
Inductive probe_exchange :=
| ProbeConnectFails
| ProbeSendFails
| ProbeSent (confirmed : bool).

Definition test_connection (x : probe_exchange) (s : TelexITelexSrv)
  : bool * TelexITelexSrv :=
  match x with
  | ProbeConnectFails => (false, emit (EvProbe false) s)
  | ProbeSendFails =>
      (false, emit (EvProbe false) (set_selftest_event false s))
  | ProbeSent confirmed =>
      (confirmed, emit (EvProbe confirmed) (set_selftest_event false s))
  end.

(** The value [test_connection] returns. *)
Definition probe_confirmed (x : probe_exchange) : bool :=
  match x with
  | ProbeSent confirmed => confirmed
  | _ => false
  end.

(** ** The scheduler: [thread_handle_tns_update] *)

(** What the network does to the next registration and to the next probe,
    whichever the scheduler performs. *)
Record sched_env := mkEnv {
  tns : tns_exchange;
  probe : probe_exchange
}.

(** One pass through the head of the [while] loop (registration and the
    check of the address) or one turn of the [for] loop. *)
Definition thread_handle_tns_update (e : sched_env) (s : TelexITelexSrv)
  : TelexITelexSrv :=
  match sched s with
  | NotStarted | Returned => s
  | LoopHead =>
      if run s then
        let '(ok, s) := update_tns_record (tns e) s in
        let s :=
          if ok then
            let s := set_update_tns_fail 0 s in
            if test_connection_fail s =? 666
            then set_test_connection_fail 0 s else s
          else set_update_tns_fail (update_tns_fail s + 1) s in
        if negb (truthy_str (ip_address s))
        then set_sched LoopHead (emit (EvSleep 3600) s)
        else set_sched (InnerLoop 180) s
      else set_sched Returned s
  | InnerLoop O => set_sched LoopHead s
  | InnerLoop (S remaining) =>
      let s := emit (EvSleep 20) s in
      if test_connection_fail s >=? 12 then
        set_sched (InnerLoop remaining) (set_test_connection_fail 666 s)
      else
        let '(ok, s) := test_connection (probe e) s in
        let s :=
          if ok then set_test_connection_fail 0 s
          else set_test_connection_fail (test_connection_fail s + 1) s in
        if test_connection_fail s =? 6 then set_sched LoopHead s
        else set_sched (InnerLoop remaining) s
  end.

(** ** The threads together

    The threads of the object interleave; an execution is a sequence of
    their steps and of the calls the device framework makes. *)
Inductive op :=
| OpAccept (c : connection)
| OpHandlerEnter (c : sock)
| OpHandlerLeave (c : sock) (raised : bool)
| OpRead
| OpWrite (a source : string)
| OpExit
| OpSched (e : sched_env).

Definition step (o : op) (s : TelexITelexSrv) : TelexITelexSrv :=
  match o with
  | OpAccept c => accept_turn c s
  | OpHandlerEnter c => handle_client_enter c s
  | OpHandlerLeave c raised => handle_client_leave c raised s
  | OpRead => snd (read s)
  | OpWrite a source => write a source s
  | OpExit => exit s
  | OpSched e => thread_handle_tns_update e s
  end.

Fixpoint run_ops (ops : list op) (s : TelexITelexSrv) : TelexITelexSrv :=
  match ops with
  | [] => s
  | o :: rest => run_ops rest (step o s)
  end.

(** ** Reading an event log *)

Definition is_probe (e : event) : bool :=
  match e with EvProbe _ => true | _ => false end.

Definition is_register (e : event) : bool :=
  match e with EvRegister _ => true | _ => false end.

Definition is_registered (e : event) : bool :=
  match e with EvRegister true => true | _ => false end.

(** Whether a probe comes before the first registration attempt. *)
Fixpoint probe_before_register (evs : list event) : bool :=
  match evs with
  | [] => false
  | EvProbe _ :: _ => true
  | EvRegister _ :: _ => false
  | _ :: rest => probe_before_register rest
  end.

(** The events that concern socket [c]. *)
Definition touches (c : sock) (e : event) : bool :=
  match e with
  | EvSendReject c' | EvClose c' => bool_decide (c' = c)
  | EvThreadStart (iTelexShc c') => bool_decide (c' = c)
  | _ => false
  end.

(** ** Invariants of the executions *)

(** The failure counter of the self-test is a count up to 12 or the marker
    666; a count beyond 6 is only met inside the [for] loop that began at
    6, that many turns in. *)
Definition counter_inv (s : TelexITelexSrv) : Prop :=
  let n := test_connection_fail s in
  (0 <= n <= 12 \/ n = 666) /\
  (7 <= n <= 12 -> sched s = InnerLoop (Z.to_nat (186 - n))) /\
  (n = 6 -> sched s = LoopHead \/ sched s = InnerLoop 180).

(** The registry holds at most one socket, and only sockets that exist. *)
Definition registry_inv (s : TelexITelexSrv) : Prop :=
  (size (clients s) <= 1)%nat /\
  forall k, is_Some (clients s !! k) -> (k < next_sock s)%nat.

Definition inv (s : TelexITelexSrv) : Prop :=
  run s = true /\ counter_inv s /\ registry_inv s.

(** The attributes that neither the TNS client nor the prober assigns. *)
Definition same_frame (s s' : TelexITelexSrv) : Prop :=
  run s' = run s /\ clients s' = clients s /\ next_sock s' = next_sock s /\
  sched s' = sched s /\ acceptor s' = acceptor s /\
  test_connection_fail s' = test_connection_fail s /\
  update_tns_fail s' = update_tns_fail s.

(** ** Example executions *)

(** The object that [__init__] builds for number 12345678 and pin 4321 on
    the default port. *)
Definition node : TelexITelexSrv :=
  {| _port := 2342; _number := Some 12345678; _tns_pin := Some 4321;
     run := true; _run := None; clients := ∅; SERVER := true;
     _tx_buffer := []; _rx_buffer := [];
     update_tns_fail := 0; test_connection_fail := 0;
     ip_address := None; selftest_event := false; _tns_port := None;
     next_sock := O; sched := LoopHead; acceptor := Accepting;
     log := [EvThreadStart iTelexSaic; EvThreadStart iTelexTNSupd] |}.

Definition confirm_1_2_3_4 : list byte := [x02; x04; x01; x02; x03; x04].

(** The TNS server answers with 1.2.3.4; probes get no confirmation. *)
Definition env_unreachable : sched_env :=
  mkEnv (TnsAnswer confirm_1_2_3_4) (ProbeSent false).

(** The TNS server answers with 1.2.3.4; probes are confirmed. *)
Definition env_reachable : sched_env :=
  mkEnv (TnsAnswer confirm_1_2_3_4) (ProbeSent true).

(** A caller from elsewhere, and a connection from the node's own address
    that sends one zero byte. *)
Definition caller : connection := mkConn ("192.0.2.7"%string, 50000) [].
Definition own_other : connection := mkConn ("1.2.3.4"%string, 50001) [x00].

(** The node after one registration and one admitted call. *)
Definition node_in_call : TelexITelexSrv :=
  run_ops [OpSched env_unreachable; OpAccept caller] node.

(** Twelve failed probes in a row: a registration, six probes, the
    registration they force, six more probes. *)
Definition twelve_failures : list op :=
  replicate 14 (OpSched env_unreachable).

(** The rest of that [for] loop, 174 turns and its end. *)
Definition rest_of_hour : list op :=
  replicate 175 (OpSched env_unreachable).

(** A registration and five failed probes. *)
Definition five_failures : list op :=
  replicate 6 (OpSched env_unreachable).

(** The node after its first registration, and the probe as it arrives. *)
Definition node_registered : TelexITelexSrv :=
  run_ops [OpSched env_unreachable] node.

Definition own_probe : connection :=
  mkConn ("1.2.3.4"%string, 50002) selftest_packet.

(** ** Repeated calls from the device framework *)

(** [n] calls of [read], with what each returns. *)
Fixpoint read_n (n : nat) (s : TelexITelexSrv)
  : list (option string) * TelexITelexSrv :=
  match n with
  | O => ([], s)
  | S n' =>
      let '(a, s) := read s in
      let '(rest, s) := read_n n' s in
      (a :: rest, s)
  end.

(** One call of [write] for each element of [chars], all from [source]. *)
Fixpoint write_all (chars : list string) (source : string)
  (s : TelexITelexSrv) : TelexITelexSrv :=
  match chars with
  | [] => s
  | a :: rest => write_all rest source (write a source s)
  end.

(** ** The self-test with the acceptor in view

    [test_connection], lines 241 to 258, with the wait for the event spelt
    out: [connected] and [sent] tell whether [connect] and [sendall]
    succeed, [during] is what the other threads do between [sendall] and
    the end of [selftest_event.wait(timeout = 1.0)], whose answer is the
    state of the event by then. *)
Definition test_connection_rendezvous
  (connected sent : bool) (during : list op) (s : TelexITelexSrv)
  : bool * TelexITelexSrv :=
  if negb connected then (false, emit (EvProbe false) s)
  else
    let s := set_selftest_event false s in
    if negb sent then (false, emit (EvProbe false) s)
    else
      let s := run_ops during s in
      let ret := selftest_event s in
      (ret, emit (EvProbe ret) (set_selftest_event false s)).

(** A connection that the acceptor takes for the self-test probe. *)
Definition is_own_probe (ip : option string) (c : connection) : bool :=
  bool_decide (Some (client_address c).1 = ip) &&
  bool_decide (recv 128 c = selftest_packet).

Definition accepted_own_probe (ip : option string) (o : op) : bool :=
  match o with
  | OpAccept c => is_own_probe ip c
  | _ => false
  end.

Definition is_sched_op (o : op) : bool :=
  match o with OpSched _ => true | _ => false end.

(** ** More readings of an event log *)

(** The registration attempts that failed since the last one that
    succeeded. *)
Definition count_register_failure (n : Z) (e : event) : Z :=
  match e with
  | EvRegister true => 0
  | EvRegister false => n + 1
  | _ => n
  end.

Definition register_failures (evs : list event) : Z :=
  foldl count_register_failure 0 evs.

(** The probes issued since the last registration attempt. *)
Definition count_probe_since (n : nat) (e : event) : nat :=
  match e with
  | EvRegister _ => O
  | EvProbe _ => S n
  | _ => n
  end.

Definition probes_since_register (evs : list event) : nat :=
  foldl count_probe_since O evs.


(** The scheduler is inside the [for] loop only with an address, and an
    address is had only from a registration that succeeded. *)
Definition address_inv (s : TelexITelexSrv) : Prop :=
  (forall k, sched s = InnerLoop k -> truthy_str (ip_address s) = true) /\
  (truthy_str (ip_address s) = true -> In (EvRegister true) (log s)).

(** The registration counter is the reading of the log, and the probes of
    the current hour fit into the turns that the [for] loop has taken. *)
Definition schedule_inv (s : TelexITelexSrv) : Prop :=
  update_tns_fail s = register_failures (log s) /\
  (probes_since_register (log s) <= 180)%nat /\
  (forall k, sched s = InnerLoop k ->
             (probes_since_register (log s) + k <= 180)%nat).

(** * The teleprinter on the GPIO pins (txDevPiGPIO.py)

    Class [TelexPiGPIO]: the methods that the device framework calls and
    the callback of pulse dialling.  The calls on the pigpio connection
    [pi] are recorded in the order they are made; what pigpio answers
    ([wave_tx_busy], [wave_create], [bb_serial_read]) is an input.  The
    Baudot-Murray coder [self._mc] is of module txCode, which is not among
    the sources at hand: its state and its two functions are parameters. *)
Module TelexPiGPIO.

(** [pigpio.TIMEOUT], the level a callback gets from the watchdog. *)
Definition TIMEOUT : Z := 2.

(** Calls on [pi] that act on the hardware. *)
Inductive hw :=
| wave_add_generic (gpio_on gpio_off delay : Z)
| wave_add_serial (user_gpio baud : Z) (data : list Z)
    (offset bb_bits bb_stop : Z)
| wave_create (wid : Z)
| wave_send_once (wid : Z)
| wave_delete (wid : Z)
| callback (user_gpio : Z)
| cancel
| set_watchdog (user_gpio wdog_timeout : Z).

(** [str(n)] for an integer, and the characters of a string one by one, as
    [list += string] appends them. *)
Definition str_int (n : Z) : string :=
  NilEmpty.string_of_int (Z.to_int n).

Fixpoint chars (s : string) : list string :=
  match s with
  | EmptyString => []
  | String c rest => String c EmptyString :: chars rest
  end.

(** ** Readings of the calls on [pi] *)

(** The data of all serial waveforms, in the order added. *)
Fixpoint serial_data (calls : list hw) : list Z :=
  match calls with
  | [] => []
  | wave_add_serial _ _ data _ _ _ :: rest => data ++ serial_data rest
  | _ :: rest => serial_data rest
  end.

(** Waveforms created and not deleted, callbacks registered and not
    cancelled: each a count. *)
Fixpoint waves_alive (n : Z) (calls : list hw) : Z :=
  match calls with
  | [] => n
  | wave_create _ :: rest => waves_alive (n + 1) rest
  | wave_delete _ :: rest => waves_alive (n - 1) rest
  | _ :: rest => waves_alive n rest
  end.

Fixpoint callbacks_alive (n : Z) (calls : list hw) : Z :=
  match calls with
  | [] => n
  | callback _ :: rest => callbacks_alive (n + 1) rest
  | cancel :: rest => callbacks_alive (n - 1) rest
  | _ :: rest => callbacks_alive n rest
  end.

Definition sends_nothing_empty (e : hw) : bool :=
  match e with
  | wave_add_serial _ _ [] _ _ _ => false
  | _ => true
  end.

Section Coder.

Variable mc : Type.
Variable encodeA2BM : mc -> string -> list Z * mc.
Variable decodeBM2A : mc -> list Z -> string * mc.

Record TelexPiGPIO := mkGPIO {
  _baudrate : Z;
  _pin_txd : Z;
  _pin_rxd : Z;
  _pin_dtr : Z;
  _pin_rts : Z;
  _inv_rxd : option Z;
  _inv_txd : option Z;
  _mc : mc;
  _tx_buffer : list Z;
  _rx_buffer : list string;
  _cb : bool;                    (* a callback is registered *)
  _is_pulse_dial : bool;
  _pulse_dial_count : Z;
  last_wid : option Z;
  pi : list hw
}.

Definition set__mc (v : mc) (s : TelexPiGPIO) : TelexPiGPIO :=
  mkGPIO (_baudrate s) (_pin_txd s) (_pin_rxd s) (_pin_dtr s) (_pin_rts s)
    (_inv_rxd s) (_inv_txd s) v (_tx_buffer s) (_rx_buffer s) (_cb s)
    (_is_pulse_dial s) (_pulse_dial_count s) (last_wid s) (pi s).

Definition set__tx_buffer (v : list Z) (s : TelexPiGPIO) : TelexPiGPIO :=
  mkGPIO (_baudrate s) (_pin_txd s) (_pin_rxd s) (_pin_dtr s) (_pin_rts s)
    (_inv_rxd s) (_inv_txd s) (_mc s) v (_rx_buffer s) (_cb s)
    (_is_pulse_dial s) (_pulse_dial_count s) (last_wid s) (pi s).

Definition set__rx_buffer (v : list string) (s : TelexPiGPIO) : TelexPiGPIO :=
  mkGPIO (_baudrate s) (_pin_txd s) (_pin_rxd s) (_pin_dtr s) (_pin_rts s)
    (_inv_rxd s) (_inv_txd s) (_mc s) (_tx_buffer s) v (_cb s)
    (_is_pulse_dial s) (_pulse_dial_count s) (last_wid s) (pi s).

Definition set__cb (v : bool) (s : TelexPiGPIO) : TelexPiGPIO :=
  mkGPIO (_baudrate s) (_pin_txd s) (_pin_rxd s) (_pin_dtr s) (_pin_rts s)
    (_inv_rxd s) (_inv_txd s) (_mc s) (_tx_buffer s) (_rx_buffer s) v
    (_is_pulse_dial s) (_pulse_dial_count s) (last_wid s) (pi s).

Definition set__pulse_dial_count (v : Z) (s : TelexPiGPIO) : TelexPiGPIO :=
  mkGPIO (_baudrate s) (_pin_txd s) (_pin_rxd s) (_pin_dtr s) (_pin_rts s)
    (_inv_rxd s) (_inv_txd s) (_mc s) (_tx_buffer s) (_rx_buffer s) (_cb s)
    (_is_pulse_dial s) v (last_wid s) (pi s).

Definition set_last_wid (v : option Z) (s : TelexPiGPIO) : TelexPiGPIO :=
  mkGPIO (_baudrate s) (_pin_txd s) (_pin_rxd s) (_pin_dtr s) (_pin_rts s)
    (_inv_rxd s) (_inv_txd s) (_mc s) (_tx_buffer s) (_rx_buffer s) (_cb s)
    (_is_pulse_dial s) (_pulse_dial_count s) v (pi s).

Definition set_pi (v : list hw) (s : TelexPiGPIO) : TelexPiGPIO :=
  mkGPIO (_baudrate s) (_pin_txd s) (_pin_rxd s) (_pin_dtr s) (_pin_rts s)
    (_inv_rxd s) (_inv_txd s) (_mc s) (_tx_buffer s) (_rx_buffer s) (_cb s)
    (_is_pulse_dial s) (_pulse_dial_count s) (last_wid s) v.
Definition call (e : hw) (s : TelexPiGPIO) : TelexPiGPIO :=
  set_pi (pi s ++ [e]) s.

(** [_write_wave]; [busy] is the answer of [wave_tx_busy()], [new_wid] that
    of [wave_create()]. *)
Definition _write_wave (busy : bool) (new_wid : Z) (s : TelexPiGPIO)
  : TelexPiGPIO :=
  match _tx_buffer s with
  | [] => s
  | _ =>
      if busy then s
      else
        let s := call (wave_add_generic (Z.shiftl 1 (_pin_rts s)) 0 10) s in
        let s := call (wave_add_serial (_pin_txd s) (_baudrate s)
                         (_tx_buffer s) 0 5 3) s in
        let s := call (wave_add_generic 0 (Z.shiftl 1 (_pin_rts s)) 10) s in
        let s := call (wave_create new_wid) s in
        let s := call (wave_send_once new_wid) s in
        let s := match last_wid s with
                 | Some wid => call (wave_delete wid) s
                 | None => s
                 end in
        let s := set_last_wid (Some new_wid) s in
        set__tx_buffer [] s
  end.

Definition write (busy : bool) (new_wid : Z) (a source : string)
  (s : TelexPiGPIO) : TelexPiGPIO :=
  if negb (String.length a =? 1)%nat then s
  else
    let '(bb, m) := encodeA2BM (_mc s) a in
    let s := set__mc m s in
    match bb with
    | [] => s
    | _ => _write_wave busy new_wid (set__tx_buffer (_tx_buffer s ++ bb) s)
    end.

Definition idle (busy : bool) (new_wid : Z) (s : TelexPiGPIO) : TelexPiGPIO :=
  match _tx_buffer s with
  | [] => s
  | _ => _write_wave busy new_wid s
  end.

(** [read]; [count] and [data] are the answer of [bb_serial_read]. *)
Definition read (count : Z) (data : list Z) (s : TelexPiGPIO)
  : string * TelexPiGPIO :=
  let s :=
    if count =? 0 then s
    else
      let '(a, m) := decodeBM2A (_mc s) data in
      let s := set__mc m s in
      if String.eqb a "" then s
      else set__rx_buffer (_rx_buffer s ++ [a]) s in
  match _rx_buffer s with
  | [] => (""%string, s)
  | ret :: rest => (ret, set__rx_buffer rest s)
  end.

Definition enable_pulse_dial (enable : bool) (s : TelexPiGPIO)
  : TelexPiGPIO :=
  let s := if _cb s then set__cb false (call cancel s) else s in
  if enable then
    let s := set__cb true (call (callback (_pin_rxd s)) s) in
    call (set_watchdog (_pin_rxd s) 150) s
  else call (set_watchdog (_pin_rxd s) 0) s.

Definition _callback_pulse_dial (gpio level tick : Z) (s : TelexPiGPIO)
  : TelexPiGPIO :=
  if level =? TIMEOUT then
    let s := if _pulse_dial_count s =? 10
             then set__pulse_dial_count 0 s else s in
    let s := set__rx_buffer
               (_rx_buffer s ++ chars (str_int (_pulse_dial_count s))) s in
    set__pulse_dial_count 0 s
  else set__pulse_dial_count (_pulse_dial_count s + 1) s.

(** The calls of the device framework and of pigpio, one after the other,
    each with what pigpio answers to it. *)
Inductive invocation :=
| Write (busy : bool) (new_wid : Z) (a source : string)
| Idle (busy : bool) (new_wid : Z)
| Read (count : Z) (data : list Z)
| EnablePulseDial (enable : bool)
| CallbackPulseDial (gpio level tick : Z).

Definition invoke (i : invocation) (s : TelexPiGPIO) : TelexPiGPIO :=
  match i with
  | Write busy new_wid a source => write busy new_wid a source s
  | Idle busy new_wid => idle busy new_wid s
  | Read count data => (read count data s).2
  | EnablePulseDial enable => enable_pulse_dial enable s
  | CallbackPulseDial gpio level tick => _callback_pulse_dial gpio level tick s
  end.

Fixpoint run (invs : list invocation) (s : TelexPiGPIO) : TelexPiGPIO :=
  match invs with
  | [] => s
  | i :: rest => run rest (invoke i s)
  end.

(** What the coder makes of the characters written, in the order of the
    calls; the coder is also turned by what [read] decodes. *)
Fixpoint encoded (m : mc) (invs : list invocation) : list Z :=
  match invs with
  | [] => []
  | Write _ _ a _ :: rest =>
      if negb (String.length a =? 1)%nat then encoded m rest
      else let '(bb, m) := encodeA2BM m a in bb ++ encoded m rest
  | Read count data :: rest =>
      if count =? 0 then encoded m rest
      else encoded (decodeBM2A m data).2 rest
  | _ :: rest => encoded m rest
  end.

(** The bookkeeping of waveforms and of the callback: at most the last
    waveform is alive, and a callback exactly when [_cb] says so; no
    serial waveform was added empty. *)
Definition tidy (s : TelexPiGPIO) : Prop :=
  waves_alive 0 (pi s) = (if last_wid s is Some _ then 1 else 0) /\
  callbacks_alive 0 (pi s) = (if _cb s then 1 else 0) /\
  forallb sends_nothing_empty (pi s) = true.

(** [n] falling edges at the rx pin. *)
Definition pulses (n : nat) (gpio : Z) : list invocation :=
  replicate n (CallbackPulseDial gpio 0 0).

End Coder.

Arguments _tx_buffer {mc} _.
Arguments _rx_buffer {mc} _.
Arguments _mc {mc} _.
Arguments _cb {mc} _.
Arguments _pulse_dial_count {mc} _.
Arguments _pin_rxd {mc} _.
Arguments _pin_txd {mc} _.
Arguments _pin_rts {mc} _.
Arguments _baudrate {mc} _.
Arguments last_wid {mc} _.
Arguments pi {mc} _.
Arguments write {mc} encodeA2BM busy new_wid a source s.
Arguments idle {mc} busy new_wid s.
Arguments _write_wave {mc} busy new_wid s.
Arguments read {mc} decodeBM2A count data s.
Arguments enable_pulse_dial {mc} enable s.
Arguments _callback_pulse_dial {mc} gpio level tick s.
Arguments invoke {mc} encodeA2BM decodeBM2A i s.
Arguments run {mc} encodeA2BM decodeBM2A invs s.
Arguments encoded {mc} encodeA2BM decodeBM2A m invs.
Arguments tidy {mc} s.

(** ** An example *)

(** A coder without state that gives each character its code point, and
    nothing for a space. *)
Definition code_points (m : unit) (a : string) : list Z * unit :=
  match a with
  | String c EmptyString =>
      if Ascii.eqb c (Ascii.ascii_of_nat 32) then ([], m)
      else ([Z.of_nat (Ascii.nat_of_ascii c)], m)
  | _ => ([], m)
  end.

Definition no_decoder (m : unit) (data : list Z) : string * unit :=
  (""%string, m).

Definition idle_device : TelexPiGPIO unit :=
  mkGPIO unit 50 17 27 22 10 None None tt [] [] false false 0 None [].

End TelexPiGPIO.

(** * Properties *)

(** ** The wire format *)

Lemma byte_of_N_to_N (n : N) : Byte.to_N (byte_of_N n) = (n mod 256)%N.
Proof.
  unfold byte_of_N.
  pose proof (Byte.to_of_N_option_map (n mod 256)) as H.
  assert (Hlt : (n mod 256 < 256)%N) by (apply N.mod_lt; lia).
  destruct (Byte.of_N (n mod 256)) as [b|]; simpl in H.
  - destruct (N.leb_spec (n mod 256) 255); congruence.
  - destruct (N.leb_spec (n mod 256) 255); [congruence | lia].
Qed.

Lemma length_le_bytes (k : nat) (n : N) : length (le_bytes k n) = k.
Proof. revert n; induction k as [|k IH]; intros n; simpl; [done | by rewrite IH]. Qed.

Lemma from_le_bytes_le_bytes (k : nat) (n : N) :
  from_le_bytes (le_bytes k n) = (n mod 256 ^ N.of_nat k)%N.
Proof.
  revert n; induction k as [|k IH]; intros n.
  - simpl. by rewrite N.mod_1_r.
  - cbn [le_bytes from_le_bytes].
    rewrite byte_of_N_to_N, IH, Nat2N.inj_succ, N.pow_succ_r'.
    by rewrite N.Div0.mod_mul_r.
Qed.

(** [to_bytes] succeeds exactly on the values that fit, and then the bytes
    read back little-endian give the value. *)
Lemma to_bytes_fits (n : Z) (k : nat) :
  0 <= n < 2 ^ (8 * Z.of_nat k) ->
  exists bs, to_bytes n k = Ok bs /\ length bs = k /\
             Z.of_N (from_le_bytes bs) = n.
Proof.
  intros [Hlo Hhi]. unfold to_bytes.
  destruct (Z.ltb_spec n 0); [lia|].
  destruct (Z.leb_spec (2 ^ (8 * Z.of_nat k)) n); [lia|].
  eexists; split; [done|]. split; [apply length_le_bytes|].
  rewrite from_le_bytes_le_bytes.
  rewrite N2Z.inj_mod, N2Z.inj_pow, Z2N.id by done.
  rewrite nat_N_Z. change (Z.of_N 256) with (2 ^ 8).
  rewrite <- Z.pow_mul_r by lia.
  apply Z.mod_small; lia.
Qed.

Lemma to_bytes_overflow (n : Z) (k : nat) :
  n < 0 \/ 2 ^ (8 * Z.of_nat k) <= n -> to_bytes n k = Raise OverflowError.
Proof.
  intros H. unfold to_bytes.
  destruct (Z.ltb_spec n 0); [done|].
  destruct (Z.leb_spec (2 ^ (8 * Z.of_nat k)) n); [done | lia].
Qed.

(** C5: the registration request for number 12345678, pin 4321 and port
    2342 is the ten bytes 01 08 4E 61 BC 00 E1 10 26 09; for every number
    of 32 bits and every pin and port of 16 bits the request is the bytes
    01 08, then four bytes that are the number little-endian, two that are
    the pin and two that are the port. *)
Theorem client_update_packet_format :
  client_update_packet (Some 12345678) (Some 4321) 2342
    = Ok [x01; x08; x4e; x61; xbc; x00; xe1; x10; x26; x09] /\
  forall number pin port : Z,
    0 <= number <= 0xffffffff -> 0 <= pin <= 0xffff -> 0 <= port <= 0xffff ->
    exists n p q : list byte,
      client_update_packet (Some number) (Some pin) port
        = Ok ([x01; x08] ++ n ++ p ++ q) /\
      length ([x01; x08] ++ n ++ p ++ q) = 10%nat /\
      length n = 4%nat /\ length p = 2%nat /\ length q = 2%nat /\
      Z.of_N (from_le_bytes n) = number /\
      Z.of_N (from_le_bytes p) = pin /\
      Z.of_N (from_le_bytes q) = port.
Proof.
  split; [reflexivity|].
  intros number pin port Hn Hp Hq.
  destruct (to_bytes_fits number 4) as (n & En & Ln & Vn); [simpl; lia|].
  destruct (to_bytes_fits pin 2) as (p & Ep & Lp & Vp); [simpl; lia|].
  destruct (to_bytes_fits port 2) as (q & Eq & Lq & Vq); [simpl; lia|].
  exists n, p, q. unfold client_update_packet, attr_to_bytes.
  rewrite En, Ep, Eq. cbn [mbind result_bind mret result_ret].
  repeat split; try done.
  rewrite !length_app, Ln, Lp, Lq. reflexivity.
Qed.

Lemma client_update_packet_format_witness :
  exists n p q : list byte,
    client_update_packet (Some 1) (Some 0) 65535
      = Ok ([x01; x08] ++ n ++ p ++ q) /\
    length ([x01; x08] ++ n ++ p ++ q) = 10%nat /\
    length n = 4%nat /\ length p = 2%nat /\ length q = 2%nat /\
    Z.of_N (from_le_bytes n) = 1 /\
    Z.of_N (from_le_bytes p) = 0 /\
    Z.of_N (from_le_bytes q) = 65535.
Proof.
  apply (proj2 client_update_packet_format 1 0 65535); lia.
Defined.

(** ** The answer of the TNS server *)

Lemma address_confirm_wrong_length (data : list byte) :
  data !! 0%nat = Some x02 -> data !! 1%nat <> Some x04 ->
  exists e, address_confirm data = Raise e.
Proof.
  intros H0 H1. unfold address_confirm, index. rewrite H0.
  cbn [mbind result_bind]. rewrite decide_True by done.
  destruct (data !! 1%nat) as [len|]; cbn [mbind result_bind]; [|by eexists].
  rewrite decide_False by congruence. by eexists.
Qed.

Lemma address_confirm_wrong_type (data : list byte) :
  data !! 0%nat <> Some x02 -> exists e, address_confirm data = Raise e.
Proof.
  intros H0. unfold address_confirm, index.
  destruct (data !! 0%nat) as [code|]; cbn [mbind result_bind]; [|by eexists].
  rewrite decide_False by congruence. cbn [mbind result_bind].
  destruct (data !! 1%nat); cbn [mbind result_bind]; by eexists.
Qed.

Lemma tns_attempt_ip_address (x : tns_exchange) (s : TelexITelexSrv) :
  ip_address (tns_attempt x s).2 = ip_address s.
Proof.
  unfold tns_attempt.
  destruct x; try done;
    destruct (client_update_packet _ _ _); done.
Qed.

(** Whatever is raised inside the [try] comes out as [False], with the
    known address as it was. *)
Lemma update_tns_record_raised (x : tns_exchange) (s : TelexITelexSrv) (e : exn) :
  (tns_attempt x s).1 = Raise e ->
  (update_tns_record x s).1 = false /\
  ip_address (update_tns_record x s).2 = ip_address s.
Proof.
  intros H. unfold update_tns_record.
  pose proof (tns_attempt_ip_address x s) as Hip.
  destruct (tns_attempt x s) as [[ip|e'] s']; simpl in *; [congruence|].
  by split.
Qed.

Lemma tns_attempt_answer_raised (data : list byte) (s : TelexITelexSrv) (e : exn) :
  address_confirm data = Raise e ->
  exists e', (tns_attempt (TnsAnswer data) s).1 = Raise e'.
Proof.
  intros H. unfold tns_attempt.
  destruct (client_update_packet _ _ _); simpl; rewrite ?H; by eexists.
Qed.

Lemma tns_attempt_no_answer (x : tns_exchange) (s : TelexITelexSrv) :
  (forall data, x <> TnsAnswer data) ->
  exists e, (tns_attempt x s).1 = Raise e.
Proof.
  intros H. unfold tns_attempt.
  destruct x; try (destruct (client_update_packet _ _ _)); simpl;
    try by eexists.
  all: by destruct (H data).
Qed.

(** C6: on the answer 02 04 01 02 03 04 the registration sets the known
    address to 1.2.3.4 and returns true; on an answer whose first byte is
    02 and whose second is not 04, on an answer whose first byte is not 02,
    and on every failure of the socket it returns false, and nothing is
    raised to the caller. *)
Theorem update_tns_record_outcomes (s : TelexITelexSrv) :
  (forall qry,
     client_update_packet (_number s) (_tns_pin s) (_port s) = Ok qry ->
     let r := update_tns_record (TnsAnswer [x02; x04; x01; x02; x03; x04]) s in
     address_confirm [x02; x04; x01; x02; x03; x04] = Ok "1.2.3.4" /\
     r.1 = true /\ ip_address r.2 = Some "1.2.3.4") /\
  (forall data,
     data !! 0%nat = Some x02 -> data !! 1%nat <> Some x04 ->
     let r := update_tns_record (TnsAnswer data) s in
     r.1 = false /\ ip_address r.2 = ip_address s) /\
  (forall data,
     data !! 0%nat <> Some x02 ->
     let r := update_tns_record (TnsAnswer data) s in
     r.1 = false /\ ip_address r.2 = ip_address s) /\
  (forall x,
     (forall data, x <> TnsAnswer data) ->
     let r := update_tns_record x s in
     r.1 = false /\ ip_address r.2 = ip_address s).
Proof.
  split; [|repeat split].
  - intros qry H. unfold update_tns_record, tns_attempt.
    cbn -[client_update_packet]. rewrite H. by repeat split.
  - destruct (address_confirm_wrong_length data) as [e He]; [done..|].
    destruct (tns_attempt_answer_raised data s e He) as [e' He'].
    by apply (update_tns_record_raised _ _ e').
  - destruct (address_confirm_wrong_length data) as [e He]; [done..|].
    destruct (tns_attempt_answer_raised data s e He) as [e' He'].
    by apply (update_tns_record_raised _ _ e').
  - destruct (address_confirm_wrong_type data) as [e He]; [done|].
    destruct (tns_attempt_answer_raised data s e He) as [e' He'].
    by apply (update_tns_record_raised _ _ e').
  - destruct (address_confirm_wrong_type data) as [e He]; [done|].
    destruct (tns_attempt_answer_raised data s e He) as [e' He'].
    by apply (update_tns_record_raised _ _ e').
  - destruct (tns_attempt_no_answer x s) as [e He]; [done|].
    by apply (update_tns_record_raised _ _ e).
  - destruct (tns_attempt_no_answer x s) as [e He]; [done|].
    by apply (update_tns_record_raised _ _ e).
Qed.

Lemma update_tns_record_outcomes_witness :
  (update_tns_record (TnsAnswer confirm_1_2_3_4) node).1 = true /\
  ip_address (update_tns_record (TnsAnswer confirm_1_2_3_4) node).2
    = Some "1.2.3.4"%string /\
  (update_tns_record (TnsAnswer [x02; x05; x01; x02; x03; x04]) node).1
    = false /\
  (update_tns_record (TnsAnswer [x03; x04; x01; x02; x03; x04]) node).1
    = false /\
  (update_tns_record TnsRecvFails node).1 = false.
Proof.
  destruct (update_tns_record_outcomes node) as (Hgood & Hlen & Htype & Hsock).
  destruct (Hgood [x01; x08; x4e; x61; xbc; x00; xe1; x10; x26; x09] eq_refl)
    as (_ & Hok & Hip).
  split; [exact Hok|]. split; [exact Hip|]. split; [|split].
  - apply (Hlen [x02; x05; x01; x02; x03; x04]); [reflexivity | discriminate].
  - apply (Htype [x03; x04; x01; x02; x03; x04]). discriminate.
  - apply (Hsock TnsRecvFails). discriminate.
Defined.

(** ** The call acceptor *)

Lemma emitted_app (s s' : TelexITelexSrv) (evs : list event) :
  log s' = log s ++ evs -> emitted s s' = evs.
Proof. intros H. unfold emitted. rewrite H. apply drop_app_length. Qed.

Lemma emitted_refl (s : TelexITelexSrv) : emitted s s = [].
Proof. apply emitted_app. by rewrite app_nil_r. Qed.

(** The loop of the acceptor is its turns one after the other, and a turn
    of a running acceptor on an open socket is [accept_connection]. *)
Lemma thread_srv_accept_incoming_connections_turns
  (arriving : list connection) (s : TelexITelexSrv) :
  thread_srv_accept_incoming_connections arriving s
  = run_ops (OpAccept <$> arriving) s.
Proof.
  revert s; induction arriving as [|c rest IH]; intros s; [done|].
  simpl. apply IH.
Qed.

Lemma accept_turn_accepts (c : connection) (s : TelexITelexSrv) :
  acceptor s = Accepting -> run s = true -> SERVER s = true ->
  accept_turn c s = accept_connection c s.
Proof. intros Ha Hr Hs. unfold accept_turn. by rewrite Ha, Hr, Hs. Qed.

Lemma thread_srv_handle_client_steps
  (c : sock) (raised : bool) (s : TelexITelexSrv) :
  thread_srv_handle_client c raised s
  = run_ops [OpHandlerEnter c; OpHandlerLeave c raised] s.
Proof. reflexivity. Qed.

(** What [accept_connection] does, by its three exits. *)
Lemma accept_connection_own (s : TelexITelexSrv) (c : connection) :
  Some (client_address c).1 = ip_address s ->
  let s' := accept_connection c s in
  log s' = log s ++
    (if decide (recv 128 c = selftest_packet) then [EvSelftestSet] else [])
    ++ [EvClose (next_sock s)] /\
  selftest_event s' =
    (if decide (recv 128 c = selftest_packet) then true
     else selftest_event s) /\
  clients s' = clients s /\
  _tx_buffer s' = _tx_buffer s /\ _rx_buffer s' = _rx_buffer s.
Proof.
  intros Hip. unfold accept_connection. cbn.
  rewrite decide_True by done.
  destruct (decide (recv 128 c = selftest_packet)); cbn;
    rewrite <- ?app_assoc; done.
Qed.

Lemma accept_connection_busy (s : TelexITelexSrv) (c : connection) :
  Some (client_address c).1 <> ip_address s -> clients s <> ∅ ->
  let s' := accept_connection c s in
  log s' = log s ++ [EvSendReject (next_sock s); EvClose (next_sock s)] /\
  clients s' = clients s /\
  selftest_event s' = selftest_event s /\
  _tx_buffer s' = _tx_buffer s /\ _rx_buffer s' = _rx_buffer s.
Proof.
  intros Hip Hbusy. unfold accept_connection. cbn.
  rewrite decide_False by done. rewrite decide_False by done.
  cbn. rewrite <- app_assoc. done.
Qed.

Lemma accept_connection_admit (s : TelexITelexSrv) (c : connection) :
  Some (client_address c).1 <> ip_address s -> clients s = ∅ ->
  let s' := accept_connection c s in
  log s' = log s ++ [EvThreadStart (iTelexShc (next_sock s))] /\
  clients s' = {[ next_sock s := client_address c ]} /\
  _tx_buffer s' = [].
Proof.
  intros Hip Hfree. unfold accept_connection. cbn.
  rewrite decide_False by done. rewrite decide_True by done.
  cbn. rewrite Hfree. done.
Qed.

(** C2: a connection from the known address whose received bytes are the
    probe 08 04 DE CA FB AD sets the self-test event, once, and is closed;
    no session is created: the registry and the buffers stay as they are
    and no handler thread is started. *)
Theorem selftest_probe_confirmed_and_muted
  (s : TelexITelexSrv) (c : connection) :
  Some (client_address c).1 = ip_address s ->
  recv 128 c = selftest_packet ->
  let s' := accept_connection c s in
  emitted s s' = [EvSelftestSet; EvClose (next_sock s)] /\
  selftest_event s' = true /\
  clients s' = clients s /\
  _tx_buffer s' = _tx_buffer s /\ _rx_buffer s' = _rx_buffer s.
Proof.
  intros Hip Hdata s'.
  destruct (accept_connection_own s c Hip) as (Hlog & Hev & Hrest).
  rewrite decide_True in Hlog by done. rewrite decide_True in Hev by done.
  split; [by apply emitted_app|]. by split.
Qed.

Lemma selftest_probe_confirmed_and_muted_witness :
  emitted node_registered (accept_connection own_probe node_registered)
    = [EvSelftestSet; EvClose 0%nat] /\
  selftest_event (accept_connection own_probe node_registered) = true /\
  clients (accept_connection own_probe node_registered)
    = clients node_registered.
Proof.
  destruct (selftest_probe_confirmed_and_muted node_registered own_probe
              eq_refl eq_refl) as (Hev & Hset & Hcl & _).
  split; [exact Hev|]. split; [exact Hset | exact Hcl].
Defined.

(** C10: a connection from the known address is closed whatever it sends:
    the registry stays as it is, no handler is started and no reject is
    sent; the bytes decide only whether the self-test event is set. *)
Theorem own_address_always_discarded (s : TelexITelexSrv) (c : connection) :
  Some (client_address c).1 = ip_address s ->
  let s' := accept_connection c s in
  clients s' = clients s /\
  _tx_buffer s' = _tx_buffer s /\
  In (EvClose (next_sock s)) (emitted s s') /\
  (forall t, ~ In (EvThreadStart t) (emitted s s')) /\
  (forall k, ~ In (EvSendReject k) (emitted s s')) /\
  (In EvSelftestSet (emitted s s') <-> recv 128 c = selftest_packet) /\
  (recv 128 c <> selftest_packet ->
   emitted s s' = [EvClose (next_sock s)] /\
   selftest_event s' = selftest_event s).
Proof.
  intros Hip s'.
  destruct (accept_connection_own s c Hip) as (Hlog & Hev & Hcl & Htx & _).
  apply emitted_app in Hlog. fold s' in Hlog, Hev, Hcl, Htx.
  rewrite Hlog.
  destruct (decide (recv 128 c = selftest_packet)) as [Hd|Hd]; simpl.
  - repeat split; try done; try tauto.
    + intros t [H|[H|[]]]; discriminate.
    + intros k [H|[H|[]]]; discriminate.
  - repeat split; try done; try tauto.
    + intros t [H|[]]; discriminate.
    + intros k [H|[]]; discriminate.
    + intros [H|[]]; discriminate.
Qed.

Lemma own_address_always_discarded_witness :
  clients (accept_connection own_other node_in_call) = clients node_in_call /\
  emitted node_in_call (accept_connection own_other node_in_call)
    = [EvClose 1%nat].
Proof.
  destruct (own_address_always_discarded node_in_call own_other eq_refl)
    as (Hcl & _ & _ & _ & _ & _ & Hother).
  split; [exact Hcl|]. apply Hother. vm_compute. discriminate.
Defined.

(** ** Executions: what a step leaves as it is *)

Lemma update_tns_record_frame (x : tns_exchange) (s : TelexITelexSrv) :
  same_frame s (update_tns_record x s).2.
Proof.
  unfold update_tns_record, tns_attempt, same_frame.
  destruct x; try (destruct (client_update_packet _ _ _));
    try (destruct (address_confirm _)); cbn; done.
Qed.

Lemma test_connection_frame (x : probe_exchange) (s : TelexITelexSrv) :
  same_frame s (test_connection x s).2.
Proof. unfold test_connection, same_frame. destruct x; cbn; done. Qed.

(** The log of a registration: at most the query, then the outcome. *)
Lemma update_tns_record_log (x : tns_exchange) (s : TelexITelexSrv) :
  exists pre,
    log (update_tns_record x s).2
      = log s ++ pre ++ [EvRegister (update_tns_record x s).1] /\
    existsb is_probe pre = false /\ existsb is_register pre = false.
Proof.
  unfold update_tns_record, tns_attempt.
  destruct x; try (destruct (client_update_packet _ _ _));
    try (destruct (address_confirm _)); cbn;
    first [ by exists [] | eexists [_]; rewrite <- app_assoc; by cbn ].
Qed.

Lemma test_connection_log (x : probe_exchange) (s : TelexITelexSrv) :
  log (test_connection x s).2 = log s ++ [EvProbe (test_connection x s).1].
Proof. destruct x; done. Qed.

Lemma update_tns_record_ip (x : tns_exchange) (s : TelexITelexSrv) :
  (update_tns_record x s).1 = false ->
  ip_address (update_tns_record x s).2 = ip_address s.
Proof.
  unfold update_tns_record. pose proof (tns_attempt_ip_address x s) as H.
  destruct (tns_attempt x s) as [[ip|e] s']; simpl in *; [done|].
  by intros _.
Qed.

(** No step assigns [self.run]. *)
Lemma thread_handle_tns_update_run (e : sched_env) (s : TelexITelexSrv) :
  run (thread_handle_tns_update e s) = run s.
Proof.
  unfold thread_handle_tns_update.
  destruct (sched s) as [| |[|k]|]; try done.
  - destruct (run s) eqn:Hrun; [|done].
    pose proof (update_tns_record_frame (tns e) s) as (Hr & _).
    destruct (update_tns_record (tns e) s) as [ok s1]; simpl in *.
    destruct ok; repeat case_match; cbn; congruence.
  - cbn. case_match; [done|].
    pose proof (test_connection_frame (probe e) (emit (EvSleep 20) s))
      as (Hr & _).
    destruct (test_connection _ _) as [ok s1]; simpl in *.
    destruct ok; repeat case_match; cbn; congruence.
Qed.

Lemma step_run (o : op) (s : TelexITelexSrv) : run (step o s) = run s.
Proof.
  destruct o; simpl; try apply thread_handle_tns_update_run;
    unfold accept_turn, accept_connection, handle_client_leave, read, write;
    repeat case_match; done.
Qed.

Lemma run_ops_run (ops : list op) (s : TelexITelexSrv) :
  run (run_ops ops s) = run s.
Proof.
  revert s; induction ops as [|o ops IH]; intros s; simpl; [done|].
  by rewrite IH, step_run.
Qed.

(** The scheduler assigns neither the registry nor the acceptor's state. *)
Lemma thread_handle_tns_update_frame (e : sched_env) (s : TelexITelexSrv) :
  let s' := thread_handle_tns_update e s in
  clients s' = clients s /\ next_sock s' = next_sock s /\
  acceptor s' = acceptor s.
Proof.
  unfold thread_handle_tns_update.
  destruct (sched s) as [| |[|k]|]; try done.
  - destruct (run s) eqn:Hrun; [|done].
    pose proof (update_tns_record_frame (tns e) s) as (_ & Hc & Hn & _ & Ha & _).
    destruct (update_tns_record (tns e) s) as [ok s1]; simpl in *.
    destruct ok; repeat case_match; cbn; by rewrite Hc, Hn, Ha.
  - cbn. case_match; [done|].
    pose proof (test_connection_frame (probe e) (emit (EvSleep 20) s))
      as (_ & Hc & Hn & _ & Ha & _).
    destruct (test_connection _ _) as [ok s1]; simpl in *.
    destruct ok; repeat case_match; cbn; by rewrite Hc, Hn, Ha.
Qed.

(** Every step but the scheduler's leaves the failure counter and the
    scheduler's control point alone, and neither registers nor probes. *)
Lemma step_other_thread (o : op) (s : TelexITelexSrv) :
  (forall e, o <> OpSched e) ->
  test_connection_fail (step o s) = test_connection_fail s /\
  sched (step o s) = sched s /\
  exists evs, log (step o s) = log s ++ evs /\
    existsb is_probe evs = false /\ existsb is_register evs = false.
Proof.
  intros Ho. destruct o; simpl; try (by destruct (Ho e));
    unfold accept_turn, accept_connection, handle_client_leave,
      handle_client_enter, read, write, exit, send_reject, disconnect_client;
    repeat case_match; cbn; repeat split; try done;
    rewrite <- ?app_assoc;
    first [ by exists []; rewrite app_nil_r | by eexists [_]
          | by eexists [_; _] ].
Qed.

Lemma thread_handle_tns_update_extends (e : sched_env) (s : TelexITelexSrv) :
  exists evs, log (thread_handle_tns_update e s) = log s ++ evs.
Proof.
  unfold thread_handle_tns_update.
  destruct (sched s) as [| |[|k]|]; try (by exists []; rewrite app_nil_r).
  - destruct (run s); [|by exists []; rewrite app_nil_r].
    destruct (update_tns_record_log (tns e) s) as (pre & Hlog & _).
    destruct (update_tns_record (tns e) s) as [ok s1]; simpl in *.
    destruct ok; repeat case_match; cbn; rewrite Hlog, <- ?app_assoc;
      by eexists.
  - cbn. case_match; [by eexists|].
    pose proof (test_connection_log (probe e) (emit (EvSleep 20) s)) as Hlog.
    destruct (test_connection _ _) as [ok s1]; simpl in *.
    destruct ok; repeat case_match; cbn; rewrite Hlog, <- ?app_assoc;
      by eexists.
Qed.

Lemma step_extends (o : op) (s : TelexITelexSrv) :
  log (step o s) = log s ++ emitted s (step o s).
Proof.
  assert (exists evs, log (step o s) = log s ++ evs) as [evs H].
  { destruct o;
      lazymatch goal with
      | |- context [OpSched _] => apply thread_handle_tns_update_extends
      | |- context [step ?o s] =>
          destruct (step_other_thread o s) as (_ & _ & evs & H & _);
          [done | by exists evs]
      end. }
  by rewrite (emitted_app _ _ evs H).
Qed.

Lemma run_ops_extends (ops : list op) (s : TelexITelexSrv) :
  log (run_ops ops s) = log s ++ emitted s (run_ops ops s).
Proof.
  assert (exists evs, log (run_ops ops s) = log s ++ evs) as [evs H].
  { revert s; induction ops as [|o ops IH]; intros s; simpl.
    - exists []. by rewrite app_nil_r.
    - destruct (IH (step o s)) as [evs H]. rewrite H, step_extends.
      rewrite <- app_assoc. by eexists. }
  by rewrite (emitted_app _ _ evs H).
Qed.

Lemma emitted_cons (o : op) (ops : list op) (s : TelexITelexSrv) :
  emitted s (run_ops (o :: ops) s)
  = emitted s (step o s) ++ emitted (step o s) (run_ops ops (step o s)).
Proof.
  apply emitted_app. simpl.
  rewrite run_ops_extends at 1. rewrite step_extends at 1.
  by rewrite app_assoc.
Qed.

(** ** The registry *)

Lemma registry_inv_step (o : op) (s : TelexITelexSrv) :
  registry_inv s -> registry_inv (step o s).
Proof.
  intros [Hsize Hkeys]. unfold registry_inv.
  destruct o; simpl.
  - unfold accept_turn.
    destruct (acceptor s), (run s), (SERVER s); try done.
    unfold accept_connection. cbn.
    destruct (decide (Some (client_address c).1 = ip_address s)) as [Hip|Hip].
    + case_match; cbn; (split; [done|]); intros k Hk; specialize (Hkeys k Hk); lia.
    + destruct (decide (clients s = ∅)) as [Hfree|Hbusy]; cbn.
      * rewrite Hfree. split.
        { rewrite insert_empty, map_size_singleton. lia. }
        intros k [a Hk]. apply lookup_insert_Some in Hk as [[<- _]|[_ Hk]].
        { lia. } { by rewrite lookup_empty in Hk. }
      * split; [done|]. intros k Hk; specialize (Hkeys k Hk); lia.
  - done.
  - unfold handle_client_leave. cbn. split.
    + destruct raised; cbn;
        (etrans; [apply map_subseteq_size, delete_subseteq | done]).
    + intros k [a Hk]. destruct raised; cbn in *;
        apply lookup_delete_Some in Hk as [_ Hk]; apply Hkeys; by eexists.
  - unfold read. by case_match.
  - unfold write. repeat case_match; done.
  - done.
  - destruct (thread_handle_tns_update_frame e s) as (-> & -> & _). done.
Qed.

(** ** The failure counter *)

Lemma counter_inv_sched (e : sched_env) (s : TelexITelexSrv) :
  run s = true -> counter_inv s ->
  counter_inv (thread_handle_tns_update e s).
Proof.
  intros Hrun (Hrange & Hhigh & Hsix).
  unfold thread_handle_tns_update.
  destruct (sched s) as [| |[|k]|] eqn:Hpc; try (by rewrite <- Hpc in * ).
  - (* the head of the while loop *)
    rewrite Hrun.
    pose proof (update_tns_record_frame (tns e) s)
      as (_ & _ & _ & _ & _ & Hn & _).
    destruct (update_tns_record (tns e) s) as [ok s1]; simpl in Hn.
    assert (Hlow : ~ 7 <= test_connection_fail s <= 12).
    { intros H. by specialize (Hhigh H). }
    unfold counter_inv.
    destruct ok; cbn; repeat case_match; cbn; rewrite ?Hn;
      (split; [|split]); try (intros; lia); auto;
      destruct (Z.eqb_spec (test_connection_fail s1) 666); try done; lia.
  - (* the for loop is exhausted *)
    unfold counter_inv. cbn. split; [|split]; auto.
    + intros H. specialize (Hhigh H). inversion Hhigh; lia.
  - (* one turn of the for loop *)
    cbn. destruct (Z.geb_spec (test_connection_fail s) 12) as [Hge|Hlt].
    + unfold counter_inv. cbn. split; [|split]; intros; lia.
    + pose proof (test_connection_frame (probe e) (emit (EvSleep 20) s))
        as (_ & _ & _ & _ & _ & Hn & _).
      destruct (test_connection _ _) as [ok s1]; simpl in Hn.
      unfold counter_inv.
      destruct ok; cbn.
      * split; [|split]; intros; lia.
      * rewrite Hn.
        destruct (Z.eqb_spec (test_connection_fail s + 1) 6) as [H6|H6]; cbn.
        { split; [|split]; try (intros; lia). intros _. by left. }
        split; [|split]; try (intros; lia).
        intros H7. f_equal.
        destruct (Z.eq_dec (test_connection_fail s) 6) as [E6|N6].
        -- destruct (Hsix E6) as [H|H]; [discriminate|].
           inversion H; subst. rewrite E6. reflexivity.
        -- assert (H : 7 <= test_connection_fail s <= 12) by lia.
           specialize (Hhigh H). inversion Hhigh as [Hk]. lia.
Qed.

Lemma inv_step (o : op) (s : TelexITelexSrv) : inv s -> inv (step o s).
Proof.
  intros (Hrun & Hcount & Hreg). split; [|split].
  - by rewrite step_run.
  - destruct o;
      lazymatch goal with
      | |- context [OpSched _] => by apply counter_inv_sched
      | |- context [step ?o s] =>
          destruct (step_other_thread o s) as (Hn & Hpc & _); [done|];
          unfold counter_inv; by rewrite Hn, Hpc
      end.
  - by apply registry_inv_step.
Qed.

Lemma inv_run_ops (ops : list op) (s : TelexITelexSrv) :
  inv s -> inv (run_ops ops s).
Proof.
  revert s; induction ops as [|o ops IH]; intros s H; simpl; [done|].
  by apply IH, inv_step.
Qed.

Lemma inv_init (port number tns_pin : option Z) (s : TelexITelexSrv) :
  __init__ port number tns_pin = Ok s -> inv s.
Proof.
  unfold __init__. destruct tns_pin as [pin|]; [|done].
  repeat case_match; intros [= <-]; cbn;
    (split; [done|]); (split; [unfold counter_inv; cbn; lia|]);
    (split; cbn; [rewrite map_size_empty; lia|]);
    intros k [a Hk]; by rewrite lookup_empty in Hk.
Qed.

Lemma init_node : __init__ None (Some 12345678) (Some 4321) = Ok node.
Proof. reflexivity. Qed.

(** C1, as the code has it: in every execution the registry holds at most
    one session.  While it holds one, a connection from any address other
    than the known own address is sent the reject and closed; the registry
    stays as it is, and nothing is sent to or closed on the socket of the
    session. *)
Theorem single_session_admission
  (port number tns_pin : option Z) (s0 : TelexITelexSrv) (ops : list op) :
  __init__ port number tns_pin = Ok s0 ->
  let s := run_ops ops s0 in
  (size (clients s) <= 1)%nat /\
  forall c : connection,
    clients s <> ∅ ->
    Some (client_address c).1 <> ip_address s ->
    let s' := accept_connection c s in
    emitted s s' = [EvSendReject (next_sock s); EvClose (next_sock s)] /\
    clients s' = clients s /\
    forall k a, clients s !! k = Some a ->
      clients s' !! k = Some a /\
      existsb (touches k) (emitted s s') = false.
Proof.
  intros Hinit s.
  destruct (inv_run_ops ops s0 (inv_init _ _ _ _ Hinit)) as (_ & _ & Hsize & Hkeys).
  fold s in Hsize, Hkeys. split; [done|].
  intros c Hbusy Hip s'.
  destruct (accept_connection_busy s c Hip Hbusy) as (Hlog & Hcl & _).
  fold s' in Hlog, Hcl. apply emitted_app in Hlog.
  split; [done|]. split; [done|].
  intros k a Hk. rewrite Hcl, Hlog. split; [done|].
  assert (k < next_sock s)%nat by (apply Hkeys; by eexists).
  cbn. rewrite bool_decide_false by lia. done.
Qed.

Lemma single_session_admission_witness :
  (size (clients node_in_call) <= 1)%nat /\
  emitted node_in_call (accept_connection caller node_in_call)
    = [EvSendReject 1%nat; EvClose 1%nat] /\
  clients (accept_connection caller node_in_call) !! 0%nat
    = Some ("192.0.2.7"%string, 50000).
Proof.
  destruct (single_session_admission None (Some 12345678) (Some 4321) node
              [OpSched env_unreachable; OpAccept caller] eq_refl)
    as [Hsize Hbusy].
  split; [exact Hsize|].
  destruct (Hbusy caller) as (Hlog & _ & Hkeep).
  - intros H. apply (f_equal (lookup 0%nat)) in H. vm_compute in H. discriminate.
  - vm_compute. discriminate.
  - split; [exact Hlog|].
    apply (Hkeep 0%nat ("192.0.2.7"%string, 50000)). reflexivity.
Defined.

(** C1 as it is stated fails: during a call, a connection from the node's
    own address that does not send the probe is closed without the
    reject. *)
Lemma busy_reject_skipped_for_own_address :
  __init__ None (Some 12345678) (Some 4321) = Ok node /\
  node_in_call = run_ops [OpSched env_unreachable; OpAccept caller] node /\
  clients node_in_call !! 0%nat = Some ("192.0.2.7"%string, 50000) /\
  recv 128 own_other <> selftest_packet /\
  emitted node_in_call (accept_connection own_other node_in_call)
    = [EvClose 1%nat] /\
  ~ In (EvSendReject 1%nat)
       (emitted node_in_call (accept_connection own_other node_in_call)).
Proof.
  split; [reflexivity|]. split; [reflexivity|]. split; [reflexivity|].
  split; [vm_compute; discriminate|].
  assert (H : emitted node_in_call (accept_connection own_other node_in_call)
              = [EvClose 1%nat]) by reflexivity.
  split; [exact H|]. rewrite H. intros [E|[]]. discriminate.
Qed.

(** ** [write] *)

(** The sources that the test [source in '<>'] filters: the substrings of
    the two-character string, the empty one among them. *)
Lemma str_in_reserved (source : string) :
  str_in source "<>" = true <->
  source = "" \/ source = "<" \/ source = ">" \/ source = "<>".
Proof.
  split.
  - destruct source as [|a [|b [|c r]]]; cbn; auto;
      repeat (case_match; cbn; subst); try discriminate; auto.
  - intros [->|[->|[->| ->]]]; reflexivity.
Qed.

Lemma length_1_not_ESC_Z (a : string) : String.length a = 1%nat -> a <> ESC_Z.
Proof. by intros H ->. Qed.

(** C9, as the code has it: for a single character [a] and a source that is
    neither empty nor the two-character string of both tags, [write]
    appends [a] to the tx buffer if and only if the source is neither of
    the tags '<' and '>'.  For an input that is not a single character
    nothing is appended, and the session is disconnected exactly when the
    input is ESC Z. *)
Theorem write_filters_reserved_sources
  (a source : string) (s : TelexITelexSrv) :
  let s' := write a source s in
  (String.length a = 1%nat -> source <> "" -> source <> "<>" ->
   (_tx_buffer s' = _tx_buffer s ++ [a] <-> source <> "<" /\ source <> ">") /\
   (source = "<" \/ source = ">" -> s' = s) /\
   emitted s s' = []) /\
  (String.length a <> 1%nat ->
   _tx_buffer s' = _tx_buffer s /\
   (In EvDisconnectClient (emitted s s') <-> a = ESC_Z) /\
   (a = ESC_Z -> s' = disconnect_client s) /\
   (a <> ESC_Z -> s' = s)).
Proof.
  intros s'. subst s'. unfold write. split.
  - intros Hlen Hne Hboth.
    apply Nat.eqb_eq in Hlen. rewrite Hlen. cbn [negb].
    destruct (str_in source "<>") eqn:Hin.
    + apply str_in_reserved in Hin as [?|[->|[->|?]]]; try done.
      * split; [|split]; [|done|apply emitted_refl].
        split; [|by intros [? _]].
        intros H. apply (f_equal length) in H.
        rewrite length_app in H. simpl in H. lia.
      * split; [|split]; [|done|apply emitted_refl].
        split; [|by intros [_ ?]].
        intros H. apply (f_equal length) in H.
        rewrite length_app in H. simpl in H. lia.
    + split; [|split].
      * split; [|done]. intros _.
        split; intros ->; by vm_compute in Hin.
      * intros [->| ->]; by vm_compute in Hin.
      * by apply emitted_app; rewrite app_nil_r.
  - intros Hlen. apply Nat.eqb_neq in Hlen. rewrite Hlen. cbn [negb].
    destruct (String.eqb_spec a ESC_Z) as [->|Hne].
    + split; [done|]. split; [|done].
      rewrite (emitted_app _ _ [EvDisconnectClient]) by done.
      split; [done | intros _; by left].
    + split; [done|]. rewrite emitted_refl. split; [|done].
      split; [intros [] | done].
Qed.

Lemma write_filters_reserved_sources_witness :
  (_tx_buffer (write "a" "#" node) = _tx_buffer node ++ ["a"%string]
   <-> "#"%string <> "<"%string /\ "#"%string <> ">"%string) /\
  (In EvDisconnectClient (emitted node_in_call (write ESC_Z "#" node_in_call))
   <-> ESC_Z = ESC_Z).
Proof.
  split.
  - apply (proj1 (write_filters_reserved_sources "a" "#" node));
      [reflexivity | discriminate | discriminate].
  - apply (proj2 (write_filters_reserved_sources ESC_Z "#" node_in_call)).
    vm_compute. discriminate.
Defined.

(** C9 as it is stated fails: the empty source is neither of the two tags,
    and the character is not appended. *)
Lemma write_drops_character_of_empty_source :
  String.length "a" = 1%nat /\
  ""%string <> "<"%string /\ ""%string <> ">"%string /\
  _tx_buffer (write "a" "" node) = _tx_buffer node /\
  _tx_buffer (write "a" "" node) <> _tx_buffer node ++ ["a"%string].
Proof. repeat split; try reflexivity; discriminate. Qed.

(** ** [exit] *)

Lemma thread_handle_tns_update_alive (e : sched_env) (s : TelexITelexSrv) :
  run s = true -> sched s <> Returned ->
  sched (thread_handle_tns_update e s) <> Returned.
Proof.
  intros Hrun Hpc. unfold thread_handle_tns_update.
  destruct (sched s) as [| |[|k]|] eqn:E; try done; try by rewrite E.
  - rewrite Hrun.
    destruct (update_tns_record (tns e) s) as [ok s1].
    destruct ok; repeat case_match; done.
  - cbn. case_match; [done|].
    destruct (test_connection _ _) as [ok s1].
    destruct ok; repeat case_match; done.
Qed.

Lemma step_alive (o : op) (s : TelexITelexSrv) :
  run s = true ->
  (sched s <> Returned -> sched (step o s) <> Returned) /\
  (acceptor s <> AcceptReturned -> acceptor (step o s) <> AcceptReturned).
Proof.
  intros Hrun. split.
  - intros Hpc. destruct o;
      lazymatch goal with
      | |- context [OpSched _] => by apply thread_handle_tns_update_alive
      | |- context [step ?o s] =>
          destruct (step_other_thread o s) as (_ & -> & _); done
      end.
  - intros Hacc. destruct o; simpl;
      try (by destruct (thread_handle_tns_update_frame e s) as (_ & _ & ->));
      unfold accept_turn, accept_connection, handle_client_leave, read, write;
      rewrite ?Hrun; repeat case_match; cbn; congruence.
Qed.

Lemma run_ops_alive (ops : list op) (s : TelexITelexSrv) :
  run s = true ->
  (sched s <> Returned -> sched (run_ops ops s) <> Returned) /\
  (acceptor s <> AcceptReturned ->
   acceptor (run_ops ops s) <> AcceptReturned).
Proof.
  revert s; induction ops as [|o ops IH]; intros s Hrun; simpl; [done|].
  destruct (step_alive o s Hrun) as [H1 H2].
  destruct (IH (step o s)) as [H3 H4]; [by rewrite step_run|].
  split; auto.
Qed.

Lemma thread_handle_tns_update_registers (e : sched_env) (s : TelexITelexSrv) :
  sched s = LoopHead -> run s = true ->
  exists pre post,
    emitted s (thread_handle_tns_update e s)
      = pre ++ EvRegister (update_tns_record (tns e) s).1 :: post /\
    existsb is_probe pre = false /\ existsb is_register pre = false /\
    existsb is_probe post = false /\ existsb is_register post = false.
Proof.
  intros Hpc Hrun. unfold thread_handle_tns_update. rewrite Hpc, Hrun.
  destruct (update_tns_record_log (tns e) s) as (pre & Hlog & Hp & Hr).
  destruct (update_tns_record (tns e) s) as [ok s1]; simpl in *.
  exists pre.
  destruct ok; repeat case_match; cbn;
    first [ exists [EvSleep 3600];
            split; [apply emitted_app; cbn; rewrite Hlog, <- !app_assoc; done|done]
          | exists []; split; [by apply emitted_app|done] ].
Qed.

(** C7 against the code: [exit] disconnects the session and closes the
    listening socket, but it assigns [self._run], and the loops test
    [self.run]: whatever follows, [self.run] stays true, the scheduler
    never leaves its loop and goes on registering, and the accept loop
    never sees a cleared flag. *)
Theorem exit_leaves_run_flag_set (s : TelexITelexSrv) (ops : list op) :
  run s = true -> sched s <> Returned -> acceptor s <> AcceptReturned ->
  emitted s (exit s) = [EvDisconnectClient; EvServerClose] /\
  SERVER (exit s) = false /\
  _run (exit s) = Some false /\
  let s' := run_ops ops (exit s) in
  run s' = true /\
  sched s' <> Returned /\
  acceptor s' <> AcceptReturned /\
  (sched s' = LoopHead ->
   forall e, existsb is_register (emitted s' (thread_handle_tns_update e s'))
             = true).
Proof.
  intros Hrun Hpc Hacc.
  split; [apply emitted_app; cbn; by rewrite <- app_assoc|].
  split; [done|]. split; [done|]. intros s'.
  assert (Hrun' : run s' = true) by (unfold s'; by rewrite run_ops_run).
  destruct (run_ops_alive ops (exit s)) as [H1 H2]; [done|].
  split; [done|]. split; [by apply H1|]. split; [by apply H2|].
  intros Hhead e.
  destruct (thread_handle_tns_update_registers e s' Hhead Hrun')
    as (pre & post & -> & _).
  rewrite existsb_app. cbn. by rewrite orb_true_r.
Qed.

Lemma exit_leaves_run_flag_set_witness :
  run (exit node) = true /\
  sched (run_ops [OpSched env_reachable] (exit node)) <> Returned /\
  existsb is_register
    (emitted (exit node) (thread_handle_tns_update env_reachable (exit node)))
  = true.
Proof.
  assert (Hrun : run node = true) by reflexivity.
  assert (Hpc : sched node <> Returned) by discriminate.
  assert (Hacc : acceptor node <> AcceptReturned) by discriminate.
  split; [|split].
  - apply (exit_leaves_run_flag_set node [] Hrun Hpc Hacc).
  - apply (exit_leaves_run_flag_set node [OpSched env_reachable] Hrun Hpc Hacc).
  - apply (exit_leaves_run_flag_set node [] Hrun Hpc Hacc). reflexivity.
Defined.

(** ** Construction *)

(** C8 against the code: without the key tns-pin the constructor compares
    [None] with 0 and raises; no object is built and no thread is started,
    the acceptor's included. *)
Theorem init_without_pin_raises (port number : option Z) :
  __init__ port number None = Raise TypeError.
Proof. reflexivity. Qed.

(** A scheduler thread that was not started stays so, and without it
    nothing registers or probes. *)
Lemma not_started_forever (ops : list op) (s : TelexITelexSrv) :
  sched s = NotStarted ->
  sched (run_ops ops s) = NotStarted /\
  existsb is_register (emitted s (run_ops ops s)) = false /\
  existsb is_probe (emitted s (run_ops ops s)) = false.
Proof.
  revert s. induction ops as [|o ops IH]; intros s Hs.
  - simpl. by rewrite emitted_refl.
  - rewrite emitted_cons, !existsb_app. simpl run_ops.
    assert (Hstep : sched (step o s) = NotStarted /\
              existsb is_register (emitted s (step o s)) = false /\
              existsb is_probe (emitted s (step o s)) = false).
    { destruct o;
        lazymatch goal with
        | |- context [OpSched ?e] =>
            simpl; unfold thread_handle_tns_update; rewrite Hs;
            by rewrite emitted_refl
        | |- context [step ?o s] =>
            destruct (step_other_thread o s) as (_ & -> & evs & Hl & ? & ?);
            [done|]; by rewrite (emitted_app _ _ evs Hl)
        end. }
    destruct Hstep as (Hs' & -> & ->).
    destruct (IH (step o s) Hs') as (? & -> & ->). done.
Qed.

(** With an integer pin the constructor does what C8 says: a number outside
    1..0xffffffff or a pin outside 0..0xffff leaves the TNS thread
    unstarted, for good, and the acceptor running. *)
Lemma init_invalid_identity
  (port number : option Z) (pin : Z) (ops : list op) :
  ~ 1 <= default 0 number <= 0xffffffff \/ ~ 0 <= pin <= 0xffff ->
  exists s0,
    __init__ port number (Some pin) = Ok s0 /\
    log s0 = [EvThreadStart iTelexSaic] /\
    acceptor s0 = Accepting /\
    _number s0 = None /\
    sched s0 = NotStarted /\
    sched (run_ops ops s0) = NotStarted /\
    existsb is_register (emitted s0 (run_ops ops s0)) = false /\
    existsb is_probe (emitted s0 (run_ops ops s0)) = false.
Proof.
  intros Hbad. unfold __init__.
  set (n := default 0 number) in *.
  assert (Hnone :
    (let '(number, tns_pin) :=
       if (pin <? 0) || (pin >? 0xffff) then (None, None)
       else (if (n <=? 0) || (n >? 0xffffffff) then None else Some n, Some pin)
     in number) = None).
  { destruct (Z.ltb_spec pin 0), (Z.gtb_spec pin 0xffff); try done.
    destruct (Z.leb_spec n 0), (Z.gtb_spec n 0xffffffff); try done. cbn. lia. }
  destruct (if (pin <? 0) || (pin >? 0xffff) then _ else _)
    as [num tpin] eqn:E. simpl in Hnone. subst num.
  eexists; split; [reflexivity|]. cbn.
  repeat (split; [done|]).
  by apply not_started_forever.
Qed.

(** ** The scheduler *)

Lemma test_connection_result (x : probe_exchange) (s : TelexITelexSrv) :
  (test_connection x s).1 = probe_confirmed x.
Proof. by destruct x. Qed.

(** One turn of the [for] loop. *)
Lemma thread_handle_tns_update_turn
  (e : sched_env) (s : TelexITelexSrv) (k : nat) :
  sched s = InnerLoop (S k) ->
  let s' := thread_handle_tns_update e s in
  (12 <= test_connection_fail s ->
   emitted s s' = [EvSleep 20] /\
   test_connection_fail s' = 666 /\
   sched s' = InnerLoop k) /\
  (test_connection_fail s < 12 ->
   emitted s s' = [EvSleep 20; EvProbe (probe_confirmed (probe e))] /\
   test_connection_fail s' =
     (if probe_confirmed (probe e) then 0 else test_connection_fail s + 1) /\
   sched s' =
     (if test_connection_fail s' =? 6 then LoopHead else InnerLoop k)).
Proof.
  intros Hpc s'. subst s'. unfold thread_handle_tns_update. rewrite Hpc. cbn.
  destruct (Z.geb_spec (test_connection_fail s) 12) as [Hge|Hlt].
  - split; [intros _ | lia]. cbn. split; [by apply emitted_app|done].
  - split; [lia | intros _].
    pose proof (test_connection_frame (probe e) (emit (EvSleep 20) s))
      as (_ & _ & _ & _ & _ & Hn & _).
    pose proof (test_connection_log (probe e) (emit (EvSleep 20) s)) as Hlog.
    pose proof (test_connection_result (probe e) (emit (EvSleep 20) s)) as Hres.
    destruct (test_connection _ _) as [ok s1]; simpl in Hn, Hlog, Hres.
    rewrite <- Hres.
    destruct ok; cbn.
    + split; [apply emitted_app; cbn; rewrite Hlog, <- app_assoc; done | done].
    + rewrite Hn. destruct (test_connection_fail s + 1 =? 6) eqn:E6; cbn;
        rewrite ?Hn, ?E6;
        (split; [apply emitted_app; cbn; rewrite Hlog, <- app_assoc; done
                | done]).
Qed.

(** One pass through the head of the [while] loop. *)
Lemma thread_handle_tns_update_head (e : sched_env) (s : TelexITelexSrv) :
  sched s = LoopHead -> run s = true ->
  let s' := thread_handle_tns_update e s in
  test_connection_fail s' =
    (if (update_tns_record (tns e) s).1 && (test_connection_fail s =? 666)
     then 0 else test_connection_fail s) /\
  sched s' =
    (if truthy_str (ip_address s') then InnerLoop 180 else LoopHead).
Proof.
  intros Hpc Hrun s'. subst s'. unfold thread_handle_tns_update.
  rewrite Hpc, Hrun.
  pose proof (update_tns_record_frame (tns e) s)
    as (_ & _ & _ & _ & _ & Hn & _).
  destruct (update_tns_record (tns e) s) as [ok s1]; simpl in *.
  destruct ok; cbn; rewrite ?Hn;
    destruct (test_connection_fail s =? 666) eqn:E; cbn;
    repeat case_match; cbn in *; try done;
    match goal with
    | H : negb ?b = _, H0 : ?b = _ |- _ => rewrite H0 in H; discriminate
    end.
Qed.

Lemma existsb_registered_register (evs : list event) :
  existsb is_register evs = false -> existsb is_registered evs = false.
Proof.
  induction evs as [|ev evs IH]; [done|]. cbn.
  intros [H1 H2]%orb_false_iff. rewrite IH by done.
  by destruct ev as [| | | | | | | |[]|].
Qed.

(** While the counter is at 12 or beyond, a step that does not register
    with success does not probe and leaves the counter there. *)
Lemma suspended_step (o : op) (s : TelexITelexSrv) :
  12 <= test_connection_fail s ->
  existsb is_registered (emitted s (step o s)) = false ->
  12 <= test_connection_fail (step o s) /\
  existsb is_probe (emitted s (step o s)) = false.
Proof.
  intros Hn Hreg.
  destruct o;
    lazymatch goal with
    | |- context [OpSched _] => idtac
    | |- context [step ?o s] =>
        destruct (step_other_thread o s) as (-> & _ & evs & Hl & ? & ?);
        [done|]; by rewrite (emitted_app _ _ evs Hl)
    end.
  simpl in *.
  destruct (sched s) as [| |[|k]|] eqn:Hpc.
  - unfold thread_handle_tns_update. rewrite Hpc. by rewrite emitted_refl.
  - destruct (run s) eqn:Hrun.
    + destruct (thread_handle_tns_update_registers e s Hpc Hrun)
        as (pre & post & Hev & Hp1 & _ & Hp2 & _).
      destruct (thread_handle_tns_update_head e s Hpc Hrun) as [Hc _].
      rewrite Hev in Hreg |- *.
      rewrite existsb_app in Hreg |- *. cbn in Hreg |- *.
      apply orb_false_iff in Hreg as [_ [Hok _]%orb_false_iff].
      rewrite Hp1, Hp2. split; [|done].
      rewrite Hc. destruct (update_tns_record (tns e) s).1; [done|]. done.
    + unfold thread_handle_tns_update. rewrite Hpc, Hrun. cbn.
      split; [done|]. by rewrite (emitted_app _ _ []) by by rewrite app_nil_r.
  - unfold thread_handle_tns_update. rewrite Hpc. cbn.
    split; [done|]. by rewrite (emitted_app _ _ []) by by rewrite app_nil_r.
  - destruct (thread_handle_tns_update_turn e s k Hpc) as [H _].
    destruct (H Hn) as (-> & -> & _). done.
  - unfold thread_handle_tns_update. rewrite Hpc. by rewrite emitted_refl.
Qed.

Lemma suspended_run_ops (ops : list op) (s : TelexITelexSrv) :
  12 <= test_connection_fail s ->
  existsb is_registered (emitted s (run_ops ops s)) = false ->
  12 <= test_connection_fail (run_ops ops s) /\
  existsb is_probe (emitted s (run_ops ops s)) = false.
Proof.
  revert s; induction ops as [|o ops IH]; intros s Hn Hreg.
  - simpl. by rewrite emitted_refl.
  - rewrite emitted_cons, existsb_app in Hreg |- *.
    apply orb_false_iff in Hreg as [Hr1 Hr2].
    destruct (suspended_step o s Hn Hr1) as [Hn' ->].
    destruct (IH (step o s) Hn' Hr2) as [Hn'' ->]. done.
Qed.

(** The registration that succeeds while the counter is at 12 or beyond
    finds it at 666 and resets it; with an address at hand the [for] loop
    begins again and its next turn probes. *)
Lemma registered_resumes (e : sched_env) (s : TelexITelexSrv) :
  inv s -> 12 <= test_connection_fail s ->
  let s' := thread_handle_tns_update e s in
  existsb is_registered (emitted s s') = true ->
  test_connection_fail s' = 0 /\
  (truthy_str (ip_address s') = true ->
   sched s' = InnerLoop 180 /\
   forall e', existsb is_probe (emitted s' (thread_handle_tns_update e' s'))
              = true).
Proof.
  intros (Hrun & (Hrange & Hhigh & _) & _) Hn s' Hreg.
  destruct (sched s) as [| |[|k]|] eqn:Hpc.
  - subst s'. unfold thread_handle_tns_update in Hreg. rewrite Hpc in Hreg.
    by rewrite emitted_refl in Hreg.
  - destruct (thread_handle_tns_update_registers e s Hpc Hrun)
      as (pre & post & Hev & _ & Hp1 & _ & Hp2).
    destruct (thread_handle_tns_update_head e s Hpc Hrun) as [Hc Hs].
    fold s' in Hev, Hc, Hs.
    rewrite Hev, existsb_app in Hreg. cbn in Hreg.
    rewrite (existsb_registered_register pre Hp1) in Hreg.
    rewrite (existsb_registered_register post Hp2) in Hreg.
    rewrite orb_false_r in Hreg. cbn in Hreg.
    destruct (update_tns_record (tns e) s).1; [|done].
    assert (H666 : test_connection_fail s = 666).
    { destruct Hrange as [Hle|]; [|done].
      assert (H : 7 <= test_connection_fail s <= 12) by lia.
      by specialize (Hhigh H). }
    rewrite H666 in Hc. cbn in Hc. split; [done|].
    intros Hip. rewrite Hip in Hs. split; [done|]. intros e'.
    destruct (thread_handle_tns_update_turn e' s' 179 Hs) as [_ H].
    destruct H as (-> & _); [lia|]. done.
  - subst s'. unfold thread_handle_tns_update in Hreg. rewrite Hpc in Hreg.
    cbn in Hreg. by rewrite (emitted_app _ _ []) in Hreg by by rewrite app_nil_r.
  - destruct (thread_handle_tns_update_turn e s k Hpc) as [H _].
    destruct (H Hn) as (Hev & _). fold s' in Hev. by rewrite Hev in Hreg.
  - subst s'. unfold thread_handle_tns_update in Hreg. rewrite Hpc in Hreg.
    by rewrite emitted_refl in Hreg.
Qed.

(** C3: once the failure counter has reached 12, no probe is issued for as
    long as no registration succeeds; the registration that then succeeds
    resets the counter to 0, and with the address it brings the next turn
    of the scheduler probes again. *)
Theorem suspension_until_registration
  (port number tns_pin : option Z) (s0 : TelexITelexSrv) (ops : list op) :
  __init__ port number tns_pin = Ok s0 ->
  let s := run_ops ops s0 in
  12 <= test_connection_fail s ->
  forall ops',
    let s1 := run_ops ops' s in
    existsb is_registered (emitted s s1) = false ->
    existsb is_probe (emitted s s1) = false /\
    forall e,
      let s2 := thread_handle_tns_update e s1 in
      existsb is_registered (emitted s1 s2) = true ->
      test_connection_fail s2 = 0 /\
      (truthy_str (ip_address s2) = true ->
       sched s2 = InnerLoop 180 /\
       forall e',
         existsb is_probe (emitted s2 (thread_handle_tns_update e' s2))
         = true).
Proof.
  intros Hinit s Hn ops' s1 Hreg.
  destruct (suspended_run_ops ops' s Hn Hreg) as [Hn1 Hprobe].
  split; [done|]. intros e s2 Hok.
  apply registered_resumes; try done.
  apply inv_run_ops, inv_run_ops. by eapply inv_init.
Qed.

Lemma suspension_until_registration_witness :
  let s := run_ops twelve_failures node in
  let s1 := run_ops rest_of_hour s in
  let s2 := thread_handle_tns_update env_reachable s1 in
  test_connection_fail s = 12 /\
  existsb is_probe (emitted s s1) = false /\
  test_connection_fail s2 = 0 /\
  existsb is_probe (emitted s2 (thread_handle_tns_update env_reachable s2))
  = true.
Proof.
  intros s s1 s2.
  assert (Hn : 12 <= test_connection_fail s) by (vm_compute; discriminate).
  assert (Hreg : existsb is_registered (emitted s s1) = false)
    by (vm_compute; reflexivity).
  assert (Hok : existsb is_registered (emitted s1 s2) = true)
    by (vm_compute; reflexivity).
  assert (Hip : truthy_str (ip_address s2) = true) by (vm_compute; reflexivity).
  destruct (suspension_until_registration None (Some 12345678) (Some 4321)
              node twelve_failures eq_refl Hn rest_of_hour Hreg)
    as [Hprobe Hnext].
  destruct (Hnext env_reachable Hok) as [Hzero Hresume].
  destruct (Hresume Hip) as [_ Hp].
  split; [vm_compute; reflexivity|]. split; [exact Hprobe|].
  split; [exact Hzero|]. apply Hp.
Defined.

Lemma probe_before_register_skip (evs rest : list event) :
  existsb is_probe evs = false -> existsb is_register evs = false ->
  probe_before_register (evs ++ rest) = probe_before_register rest.
Proof.
  induction evs as [|ev evs IH]; [done|]. cbn.
  intros [H1 H2]%orb_false_iff [H3 H4]%orb_false_iff.
  destruct ev; try discriminate; by apply IH.
Qed.

Lemma probe_before_register_app (evs rest : list event) :
  probe_before_register evs = false -> existsb is_register evs = true ->
  probe_before_register (evs ++ rest) = false.
Proof.
  induction evs as [|ev evs IH]; [done|]. cbn.
  destruct ev; cbn; try done; by apply IH.
Qed.

(** From the head of the [while] loop on, whatever the threads do, the
    scheduler registers before it probes. *)
Lemma head_registers_first (ops : list op) (s : TelexITelexSrv) :
  sched s = LoopHead -> run s = true ->
  probe_before_register (emitted s (run_ops ops s)) = false.
Proof.
  revert s; induction ops as [|o ops IH]; intros s Hpc Hrun.
  - simpl. by rewrite emitted_refl.
  - rewrite emitted_cons.
    destruct o;
      lazymatch goal with
      | |- context [OpSched ?e] =>
          destruct (thread_handle_tns_update_registers e s Hpc Hrun)
            as (pre & post & Hev & Hp1 & Hr1 & _);
          apply probe_before_register_app; simpl step; rewrite Hev;
          [ rewrite probe_before_register_skip by done; done
          | rewrite existsb_app; cbn; by rewrite orb_true_r ]
      | |- context [step ?o s] =>
          destruct (step_other_thread o s) as (_ & Hs & evs & Hl & ? & ?);
          [done|]; rewrite (emitted_app _ _ evs Hl);
          rewrite probe_before_register_skip by done;
          apply IH; [by rewrite Hs | by rewrite step_run]
      end.
Qed.

(** C4: the step in which the failure counter reaches 6 is a failed probe
    in the [for] loop, and it leaves the loop at once, however many turns
    remain: the scheduler is back at the head of the [while] loop, its next
    step is a registration attempt, and in every continuation a
    registration attempt comes before any probe. *)
Theorem six_failures_force_registration
  (s : TelexITelexSrv) (e : sched_env) :
  run s = true ->
  let s' := thread_handle_tns_update e s in
  test_connection_fail s <> 6 -> test_connection_fail s' = 6 ->
  (exists remaining, sched s = InnerLoop (S remaining)) /\
  emitted s s' = [EvSleep 20; EvProbe false] /\
  sched s' = LoopHead /\
  (forall e', exists pre post ok,
     emitted s' (thread_handle_tns_update e' s') = pre ++ EvRegister ok :: post /\
     existsb is_probe pre = false) /\
  (forall ops, probe_before_register (emitted s' (run_ops ops s')) = false).
Proof.
  intros Hrun s' Hbefore Hafter.
  assert (Hrun' : run s' = true)
    by (unfold s'; by rewrite thread_handle_tns_update_run).
  assert (Hturn : (exists remaining, sched s = InnerLoop (S remaining)) /\
            emitted s s' = [EvSleep 20; EvProbe false] /\ sched s' = LoopHead).
  { destruct (sched s) as [| |[|k]|] eqn:Hpc.
    - subst s'. unfold thread_handle_tns_update in Hafter.
      by rewrite Hpc in Hafter.
    - destruct (thread_handle_tns_update_head e s Hpc Hrun) as [Hc _].
      fold s' in Hc. rewrite Hafter in Hc.
      destruct (_ && _); [done | by symmetry in Hc].
    - subst s'. unfold thread_handle_tns_update in Hafter.
      by rewrite Hpc in Hafter.
    - destruct (thread_handle_tns_update_turn e s k Hpc) as [Hhigh Hlow].
      fold s' in Hhigh, Hlow.
      destruct (Z.le_gt_cases 12 (test_connection_fail s)) as [Hge|Hlt].
      + destruct (Hhigh Hge) as (_ & Hc & _). lia.
      + destruct (Hlow Hlt) as (Hev & Hc & Hs).
        rewrite Hafter in Hs. cbn in Hs.
        destruct (probe_confirmed (probe e)); [lia|].
        split; [by eexists|]. by split.
    - subst s'. unfold thread_handle_tns_update in Hafter.
      by rewrite Hpc in Hafter. }
  destruct Hturn as (Hk & Hev & Hpc').
  repeat (split; [done|]). split.
  - intros e'.
    destruct (thread_handle_tns_update_registers e' s' Hpc' Hrun')
      as (pre & post & Hreg & Hp & _).
    by exists pre, post, (update_tns_record (tns e') s').1.
  - intros ops. by apply head_registers_first.
Qed.

Lemma six_failures_force_registration_witness :
  let s := run_ops five_failures node in
  let s' := thread_handle_tns_update env_unreachable s in
  sched s = InnerLoop 175 /\
  sched s' = LoopHead /\
  probe_before_register
    (emitted s' (run_ops [OpSched env_unreachable; OpSched env_unreachable] s'))
  = false.
Proof.
  intros s s'.
  assert (Hrun : run s = true) by reflexivity.
  assert (H5 : test_connection_fail s <> 6) by (vm_compute; discriminate).
  assert (H6 : test_connection_fail s' = 6) by (vm_compute; reflexivity).
  destruct (six_failures_force_registration s env_unreachable Hrun H5 H6)
    as (_ & _ & Hpc & _ & Hfirst).
  split; [vm_compute; reflexivity|]. split; [exact Hpc|]. apply Hfirst.
Defined.

(** * Further properties of the server *)

(** ** Admission *)

(** X1: with no session, a caller from an address other than the known own
    address is admitted, and the next such caller is rejected: after both,
    the registry holds the first caller alone, the tx buffer is empty, one
    handler was started, and the second socket got the reject and was
    closed.  What the callers send plays no part. *)
Theorem first_caller_admitted_second_rejected
  (s : TelexITelexSrv) (c1 c2 : connection) :
  clients s = ∅ ->
  Some (client_address c1).1 <> ip_address s ->
  Some (client_address c2).1 <> ip_address s ->
  let k := next_sock s in
  let s1 := accept_connection c1 s in
  let s2 := accept_connection c2 s1 in
  clients s1 = {[ k := client_address c1 ]} /\
  _tx_buffer s1 = [] /\
  clients s2 = {[ k := client_address c1 ]} /\
  _tx_buffer s2 = [] /\
  emitted s s2
    = [EvThreadStart (iTelexShc k); EvSendReject (S k); EvClose (S k)].
Proof.
  intros Hfree H1 H2 k s1 s2.
  destruct (accept_connection_admit s c1 H1 Hfree) as (Hlog1 & Hcl1 & Htx1).
  fold s1 k in Hlog1, Hcl1, Htx1.
  assert (Hip : ip_address s1 = ip_address s).
  { unfold s1, accept_connection. cbn.
    rewrite decide_False by done. by rewrite decide_True by done. }
  assert (Hnext : next_sock s1 = S k).
  { unfold s1, accept_connection. cbn.
    rewrite decide_False by done. by rewrite decide_True by done. }
  destruct (accept_connection_busy s1 c2) as (Hlog2 & Hcl2 & _ & Htx2 & _).
  { by rewrite Hip. }
  { rewrite Hcl1. intros H. apply (f_equal (lookup k)) in H.
    by rewrite lookup_singleton_eq, lookup_empty in H. }
  fold s2 in Hlog2, Hcl2, Htx2.
  repeat (split; [congruence|]).
  apply emitted_app. rewrite Hlog2, Hlog1, Hnext, <- app_assoc. done.
Qed.

Lemma first_caller_admitted_second_rejected_witness :
  clients (accept_connection caller (accept_connection caller node))
    = {[ 0%nat := ("192.0.2.7"%string, 50000) ]} /\
  emitted node (accept_connection caller (accept_connection caller node))
    = [EvThreadStart (iTelexShc 0%nat); EvSendReject 1%nat; EvClose 1%nat].
Proof.
  assert (Hip : Some (client_address caller).1 <> ip_address node)
    by discriminate.
  destruct (first_caller_admitted_second_rejected node caller caller
              eq_refl Hip Hip) as (_ & _ & Hcl & _ & Hev).
  split; [exact Hcl | exact Hev].
Defined.

(** X2: an accepted connection is either closed by the acceptor, the
    registry staying as it is and no handler being started, or it is
    entered into the registry and handed to one handler thread without
    being closed; never both and never neither.  The reject is sent exactly
    to a connection from another address than the known one that arrives
    during a session. *)
Theorem accepted_connection_closed_or_handled
  (s : TelexITelexSrv) (c : connection) :
  let k := next_sock s in
  let s' := accept_connection c s in
  next_sock s' = S k /\
  ((In (EvClose k) (emitted s s') /\
    ~ In (EvThreadStart (iTelexShc k)) (emitted s s') /\
    clients s' = clients s)
   \/
   (emitted s s' = [EvThreadStart (iTelexShc k)] /\
    clients s = ∅ /\
    clients s' !! k = Some (client_address c))) /\
  (In (EvSendReject k) (emitted s s') <->
   Some (client_address c).1 <> ip_address s /\ clients s <> ∅).
Proof.
  intros k s'.
  split.
  { unfold s', accept_connection. cbn. repeat case_match; done. }
  destruct (decide (Some (client_address c).1 = ip_address s)) as [Hip|Hip].
  - destruct (accept_connection_own s c Hip) as (Hlog & _ & Hcl & _).
    fold s' k in Hlog, Hcl. apply emitted_app in Hlog. rewrite Hlog. split.
    + left. split; [apply in_or_app; right; by left|]. split; [|done].
      intros [H|[H|[]]]%in_app_or; [|discriminate].
      case_match; [destruct H as [|[]]; discriminate | destruct H].
    + split; [|by intros [? _]].
      intros [H|[H|[]]]%in_app_or; [|discriminate].
      case_match; [destruct H as [|[]]; discriminate | destruct H].
  - destruct (decide (clients s = ∅)) as [Hfree|Hbusy].
    + destruct (accept_connection_admit s c Hip Hfree) as (Hlog & Hcl & _).
      fold s' k in Hlog, Hcl. apply emitted_app in Hlog. rewrite Hlog. split.
      * right. split; [done|]. split; [done|].
        rewrite Hcl. apply lookup_singleton_eq.
      * split; [|by intros [_ ?]]. intros [H|[]]. discriminate.
    + destruct (accept_connection_busy s c Hip Hbusy) as (Hlog & Hcl & _).
      fold s' k in Hlog, Hcl. apply emitted_app in Hlog. rewrite Hlog. split.
      * left. split; [right; by left|]. split; [|done].
        intros [H|[H|[]]]; discriminate.
      * split; [done | intros _; by left].
Qed.

(** ** The end of a session *)

(** X3: in every execution, when the handler of the registered session
    ends, with or without an exception of [process_connection], its socket
    is closed, ESC Z is the last entry of the rx buffer, and the registry is
    empty: the next caller from another address is admitted. *)
Theorem handler_end_frees_the_line
  (port number tns_pin : option Z) (s0 : TelexITelexSrv) (ops : list op)
  (k : sock) (a : address) (raised : bool) (c : connection) :
  __init__ port number tns_pin = Ok s0 ->
  let s := run_ops ops s0 in
  clients s !! k = Some a ->
  let s' := handle_client_leave k raised s in
  clients s' = ∅ /\
  _rx_buffer s' = _rx_buffer s ++ [ESC_Z] /\
  emitted s s'
    = (if raised then [EvDisconnectClient] else []) ++ [EvClose k] /\
  (Some (client_address c).1 <> ip_address s' ->
   clients (accept_connection c s')
     = {[ next_sock s' := client_address c ]}).
Proof.
  intros Hinit s Hk s'.
  destruct (inv_run_ops ops s0 (inv_init _ _ _ _ Hinit))
    as (_ & _ & Hsize & _). fold s in Hsize.
  assert (Hcl : clients s' = ∅).
  { unfold s', handle_client_leave. destruct raised; cbn;
      apply map_size_empty_inv;
      rewrite map_size_delete_Some by (by eexists); lia. }
  split; [done|]. split; [unfold s'; by destruct raised|].
  split.
  { apply emitted_app. unfold s', handle_client_leave.
    destruct raised; cbn; by rewrite <- ?app_assoc. }
  intros Hip. by destruct (accept_connection_admit s' c Hip Hcl) as (_ & ? & _).
Qed.

Lemma handler_end_frees_the_line_witness :
  clients (handle_client_leave 0%nat true node_in_call) = ∅ /\
  emitted node_in_call (handle_client_leave 0%nat true node_in_call)
    = [EvDisconnectClient; EvClose 0%nat] /\
  clients (accept_connection caller
             (handle_client_leave 0%nat true node_in_call))
    = {[ 1%nat := ("192.0.2.7"%string, 50000) ]}.
Proof.
  destruct (handler_end_frees_the_line None (Some 12345678) (Some 4321) node
              [OpSched env_unreachable; OpAccept caller] 0%nat
              ("192.0.2.7"%string, 50000) true caller eq_refl eq_refl)
    as (Hcl & _ & Hev & Hnext).
  split; [exact Hcl|]. split; [exact Hev|].
  apply Hnext. vm_compute. discriminate.
Defined.

(** ** After [exit] *)

(** Computes [emitted s s'] when [log s'] is [log s] with events appended. *)
Ltac emitted_by_log :=
  erewrite emitted_app;
  [ | cbn; rewrite <- ?app_assoc;
      first [ reflexivity | symmetry; apply app_nil_r ] ].





(** ** [read] and [write], call after call *)

(** X5: [read] hands out the rx buffer oldest entry first: [n] calls return
    the first [n] entries in order, then [None] for every call beyond the
    end, and leave the entries not yet read; nothing else changes. *)
Theorem reads_return_buffer_in_order (n : nat) (s : TelexITelexSrv) :
  (read_n n s).1
    = (Some <$> take n (_rx_buffer s))
      ++ replicate (n - length (_rx_buffer s)) None /\
  _rx_buffer (read_n n s).2 = drop n (_rx_buffer s) /\
  _tx_buffer (read_n n s).2 = _tx_buffer s /\
  clients (read_n n s).2 = clients s /\
  log (read_n n s).2 = log s.
Proof.
  revert s; induction n as [|n IH]; intros s.
  - simpl. by rewrite drop_0.
  - cbn [read_n]. unfold read.
    destruct (_rx_buffer s) as [|a rest] eqn:Hbuf.
    + specialize (IH s). rewrite Hbuf in IH.
      destruct (read_n n s) as [out s1]; cbn in *.
      destruct IH as (-> & -> & -> & -> & ->).
      rewrite take_nil, drop_nil, Nat.sub_0_r. done.
    + specialize (IH (set__rx_buffer rest s)). cbn in IH.
      destruct (read_n n (set__rx_buffer rest s)) as [out s1]; cbn in *.
      destruct IH as (-> & -> & -> & -> & ->). done.
Qed.

(** X6: single characters written one after the other from a source that
    the filter lets pass are in the tx buffer in the order written, behind
    what was there; from a filtered source none of them is.  Nothing is
    emitted and the registry stays as it is. *)
Theorem writes_append_in_order
  (chars : list string) (source : string) (s : TelexITelexSrv) :
  Forall (fun a => String.length a = 1%nat) chars ->
  let s' := write_all chars source s in
  _tx_buffer s' =
    (if str_in source "<>" then _tx_buffer s else _tx_buffer s ++ chars) /\
  log s' = log s /\ clients s' = clients s /\ _rx_buffer s' = _rx_buffer s.
Proof.
  intros Hchars. revert s.
  induction Hchars as [|a chars Ha _ IH]; intros s; cbn [write_all].
  - cbn. rewrite app_nil_r. by case_match.
  - destruct (IH (write a source s)) as (Htx & Hlog & Hcl & Hrx).
    cbn zeta. rewrite Htx, Hlog, Hcl, Hrx. unfold write.
    apply Nat.eqb_eq in Ha. rewrite Ha. cbn [negb].
    destruct (str_in source "<>"); cbn; [done|].
    by rewrite <- app_assoc.
Qed.

Lemma writes_append_in_order_witness :
  _tx_buffer (write_all ["a"; "b"; "c"]%string "#" node)
    = ["a"; "b"; "c"]%string /\
  _tx_buffer (write_all ["a"; "b"; "c"]%string "<" node) = [].
Proof.
  assert (H : Forall (fun a => String.length a = 1%nat) ["a"; "b"; "c"]%string)
    by (repeat constructor).
  split.
  - apply (writes_append_in_order _ "#" node H).
  - apply (writes_append_in_order _ "<" node H).
Defined.

(** ** The self-test and the acceptor *)

(** With the wait spelt out, [test_connection] is the oracle form of it at
    the answer that the event gives. *)
Lemma test_connection_rendezvous_oracle
  (during : list op) (s : TelexITelexSrv) :
  let s1 := run_ops during (set_selftest_event false s) in
  test_connection_rendezvous true true during s
  = test_connection (ProbeSent (selftest_event s1)) s1.
Proof. reflexivity. Qed.

(** A step of another thread than the scheduler leaves the known address
    and the registration counter alone, and sets the self-test event only
    by accepting the probe from the known address. *)
Lemma step_other_thread_address (o : op) (s : TelexITelexSrv) :
  is_sched_op o = false ->
  ip_address (step o s) = ip_address s /\
  update_tns_fail (step o s) = update_tns_fail s /\
  (selftest_event (step o s) = true ->
   selftest_event s = true \/ accepted_own_probe (ip_address s) o = true).
Proof.
  intros Ho. destruct o; try discriminate; simpl;
    unfold accept_turn, accept_connection, handle_client_leave,
      handle_client_enter, read, write, exit, is_own_probe;
    repeat case_match; cbn; repeat (split; [done|]); auto.
  intros _. right.
  rewrite !bool_decide_true by done. done.
Qed.

Lemma run_ops_other_threads_event (during : list op) (s : TelexITelexSrv) :
  existsb is_sched_op during = false ->
  ip_address (run_ops during s) = ip_address s /\
  (selftest_event (run_ops during s) = true ->
   selftest_event s = true \/
   existsb (accepted_own_probe (ip_address s)) during = true).
Proof.
  revert s; induction during as [|o during IH]; intros s Hno; [by auto|].
  cbn in Hno. apply orb_false_iff in Hno as [Ho Hno].
  destruct (step_other_thread_address o s Ho) as (Hip & _ & Hev).
  destruct (IH (step o s) Hno) as [Hip' Hev']. simpl.
  split; [congruence|]. intros H.
  destruct (Hev' H) as [H1|H1].
  - destruct (Hev H1) as [H2|H2]; [by left|]. right. by rewrite H2.
  - right. rewrite Hip in H1. rewrite H1. apply orb_true_r.
Qed.

Lemma accepting_run_ops_event (conns : list connection) (s : TelexITelexSrv) :
  acceptor s = Accepting -> run s = true -> SERVER s = true ->
  selftest_event (run_ops (OpAccept <$> conns) s)
  = selftest_event s || existsb (is_own_probe (ip_address s)) conns.
Proof.
  revert s; induction conns as [|c conns IH]; intros s Ha Hr Hs.
  - simpl. by rewrite orb_false_r.
  - cbn [fmap list_fmap run_ops step existsb].
    rewrite (accept_turn_accepts c s Ha Hr Hs).
    assert (Hkeep : acceptor (accept_connection c s) = Accepting /\
                    run (accept_connection c s) = true /\
                    SERVER (accept_connection c s) = true /\
                    ip_address (accept_connection c s) = ip_address s /\
                    selftest_event (accept_connection c s)
                    = selftest_event s || is_own_probe (ip_address s) c).
    { unfold accept_connection, is_own_probe.
      repeat case_match; cbn; repeat (split; [done|]);
        rewrite ?bool_decide_true, ?bool_decide_false by done;
        cbn; by rewrite ?orb_true_r, ?orb_false_r, ?andb_false_r. }
    destruct Hkeep as (Ha' & Hr' & Hs' & Hip & Hev).
    rewrite (IH _ Ha' Hr' Hs'), Hev, Hip. by rewrite orb_assoc.
Qed.

(** X7: [test_connection] returns true only if, between its [sendall] and
    the end of its wait, the acceptor accepted a connection from the known
    address that carried the probe; an event left set from before is not
    taken for the confirmation.  With the acceptor at work it returns true
    whenever such a connection is among those accepted in that time.  Once
    connected, it leaves the event cleared. *)
Theorem selftest_confirmed_by_accepted_probe
  (connected sent : bool) (during : list op) (s : TelexITelexSrv) :
  existsb is_sched_op during = false ->
  let r := test_connection_rendezvous connected sent during s in
  (r.1 = true ->
   connected = true /\ sent = true /\
   existsb (accepted_own_probe (ip_address s)) during = true) /\
  (connected = true -> selftest_event r.2 = false) /\
  (forall conns,
     during = OpAccept <$> conns ->
     connected = true -> sent = true ->
     acceptor s = Accepting -> run s = true -> SERVER s = true ->
     existsb (is_own_probe (ip_address s)) conns = true ->
     r.1 = true).
Proof.
  intros Hno r. subst r. unfold test_connection_rendezvous.
  destruct connected; cbn [negb]; [|by repeat split].
  destruct sent; cbn [negb]; [|by repeat split].
  split; [|split; [done|]].
  - cbn. intros H.
    destruct (run_ops_other_threads_event during (set_selftest_event false s) Hno)
      as [_ Hev].
    destruct (Hev H) as [H1|H1]; [discriminate | done].
  - intros conns -> _ _ Ha Hr Hs Hprobe. cbn.
    rewrite (accepting_run_ops_event conns (set_selftest_event false s))
      by done.
    cbn. done.
Qed.

Lemma selftest_confirmed_by_accepted_probe_witness :
  (test_connection_rendezvous true true
     [OpAccept caller; OpAccept own_probe] node_registered).1 = true /\
  selftest_event
    (test_connection_rendezvous true true
       [OpAccept caller; OpAccept own_probe] node_registered).2 = false.
Proof.
  destruct (selftest_confirmed_by_accepted_probe true true
              [OpAccept caller; OpAccept own_probe] node_registered eq_refl)
    as (_ & Hclear & Hok).
  split; [|by apply Hclear].
  apply (Hok [caller; own_probe]); reflexivity.
Defined.

(** ** The schedule *)

Lemma register_failures_skip (evs : list event) (n : Z) :
  existsb is_register evs = false ->
  foldl count_register_failure n evs = n.
Proof.
  revert n; induction evs as [|ev evs IH]; intros n; [done|]. cbn.
  intros [H1 H2]%orb_false_iff. rewrite IH by done.
  by destruct ev.
Qed.

Lemma probes_since_skip (evs : list event) (n : nat) :
  existsb is_probe evs = false -> existsb is_register evs = false ->
  foldl count_probe_since n evs = n.
Proof.
  revert n; induction evs as [|ev evs IH]; intros n; [done|]. cbn.
  intros [H1 H2]%orb_false_iff [H3 H4]%orb_false_iff.
  rewrite IH by done. by destruct ev.
Qed.

(** The head of the [while] loop, for the registration counter and the
    address. *)
Lemma thread_handle_tns_update_head_counters
  (e : sched_env) (s : TelexITelexSrv) :
  sched s = LoopHead -> run s = true ->
  let r := update_tns_record (tns e) s in
  let s' := thread_handle_tns_update e s in
  update_tns_fail s' = (if r.1 then 0 else update_tns_fail s + 1) /\
  ip_address s' = ip_address r.2.
Proof.
  intros Hpc Hrun r s'. subst r s'. unfold thread_handle_tns_update.
  rewrite Hpc, Hrun.
  pose proof (update_tns_record_frame (tns e) s)
    as (_ & _ & _ & _ & _ & _ & Hn).
  destruct (update_tns_record (tns e) s) as [ok s1]; simpl in *.
  destruct ok; cbn; repeat case_match; cbn; by rewrite ?Hn.
Qed.

(** Inside the [for] loop neither is assigned. *)
Lemma thread_handle_tns_update_turn_frame
  (e : sched_env) (s : TelexITelexSrv) (k : nat) :
  sched s = InnerLoop k ->
  let s' := thread_handle_tns_update e s in
  update_tns_fail s' = update_tns_fail s /\ ip_address s' = ip_address s.
Proof.
  intros Hpc s'. subst s'. unfold thread_handle_tns_update. rewrite Hpc.
  destruct k as [|k]; [done|]. cbn. case_match; [done|].
  unfold test_connection. destruct (probe e) as [| |[]]; cbn;
    repeat case_match; done.
Qed.

Lemma step_other_thread_sched (o : op) (s : TelexITelexSrv) :
  is_sched_op o = false ->
  sched (step o s) = sched s /\
  ip_address (step o s) = ip_address s /\
  update_tns_fail (step o s) = update_tns_fail s /\
  existsb is_probe (emitted s (step o s)) = false /\
  existsb is_register (emitted s (step o s)) = false.
Proof.
  intros Ho.
  destruct (step_other_thread_address o s Ho) as (Hip & Hn & _).
  destruct (step_other_thread o s) as (_ & Hpc & evs & Hl & Hp & Hr).
  { intros e ->. discriminate. }
  by rewrite (emitted_app _ _ evs Hl).
Qed.

Lemma address_inv_step (o : op) (s : TelexITelexSrv) :
  run s = true -> address_inv s -> address_inv (step o s).
Proof.
  intros Hrun [Hin Hknown].
  assert (Hlog : forall ev, In ev (log s) -> In ev (log (step o s))).
  { intros ev H. rewrite step_extends. apply in_or_app. by left. }
  destruct (is_sched_op o) eqn:Ho.
  - destruct o; try discriminate. simpl in *.
    destruct (sched s) as [| |[|k]|] eqn:Hpc.
    + unfold thread_handle_tns_update. rewrite Hpc.
      split; [intros k Hk; congruence | done].
    + destruct (thread_handle_tns_update_head e s Hpc Hrun) as [_ Hs].
      destruct (thread_handle_tns_update_head_counters e s Hpc Hrun)
        as [_ Hip].
      destruct (thread_handle_tns_update_registers e s Hpc Hrun)
        as (pre & post & Hev & _).
      split.
      * intros k Hk. rewrite Hk in Hs.
        destruct (truthy_str (ip_address (thread_handle_tns_update e s)));
          [done | discriminate].
      * intros Htruthy.
        destruct (update_tns_record (tns e) s).1 eqn:Hok.
        -- pose proof (step_extends (OpSched e) s) as Hx. simpl in Hx.
           rewrite Hx, Hev.
           apply in_or_app. right. apply in_or_app. right. by left.
        -- apply Hlog, Hknown.
           rewrite Hip, (update_tns_record_ip _ _ Hok) in Htruthy. done.
    + destruct (thread_handle_tns_update_turn_frame e s 0 Hpc) as [_ Hip].
      split.
      * intros k Hk. unfold thread_handle_tns_update in Hk.
        rewrite Hpc in Hk. discriminate.
      * rewrite Hip. intros H. by apply Hlog, Hknown.
    + destruct (thread_handle_tns_update_turn_frame e s (S k) Hpc)
        as [_ Hip].
      split.
      * intros k' _. rewrite Hip. by eapply Hin.
      * rewrite Hip. intros H. by apply Hlog, Hknown.
    + unfold thread_handle_tns_update. rewrite Hpc.
      split; [intros k Hk; congruence | done].
  - destruct (step_other_thread_sched o s Ho) as (Hpc & Hip & _).
    split.
    + intros k Hk. rewrite Hip. apply (Hin k). by rewrite <- Hpc.
    + rewrite Hip. intros H. by apply Hlog, Hknown.
Qed.

Lemma schedule_inv_step (o : op) (s : TelexITelexSrv) :
  run s = true -> schedule_inv s -> schedule_inv (step o s).
Proof.
  intros Hrun (Hfail & Hmax & Hturns).
  unfold schedule_inv, register_failures, probes_since_register.
  rewrite step_extends, !foldl_app.
  fold (register_failures (log s)) (probes_since_register (log s)).
  destruct (is_sched_op o) eqn:Ho.
  - destruct o; try discriminate. simpl in *.
    destruct (sched s) as [| |[|k]|] eqn:Hpc.
    + unfold thread_handle_tns_update. rewrite Hpc.
      rewrite emitted_refl. cbn. rewrite Hpc. by repeat split.
    + destruct (thread_handle_tns_update_head e s Hpc Hrun) as [_ Hs].
      destruct (thread_handle_tns_update_head_counters e s Hpc Hrun)
        as [Hn _].
      destruct (thread_handle_tns_update_registers e s Hpc Hrun)
        as (pre & post & Hev & Hp1 & Hr1 & Hp2 & Hr2).
      rewrite Hev, !foldl_app. cbn [foldl].
      rewrite (register_failures_skip pre), (register_failures_skip post)
        by done.
      rewrite (probes_since_skip pre), (probes_since_skip post) by done.
      rewrite Hn, Hfail. cbn.
      split; [by destruct (update_tns_record (tns e) s).1|].
      split; [lia|]. intros k Hk. rewrite Hk in Hs.
      destruct (truthy_str (ip_address (thread_handle_tns_update e s)));
        [|discriminate].
      injection Hs as ->. lia.
    + unfold thread_handle_tns_update. rewrite Hpc. cbn.
      rewrite (emitted_app _ _ []) by by rewrite app_nil_r. cbn.
      repeat split; try done.
    + destruct (thread_handle_tns_update_turn_frame e s (S k) Hpc)
        as [Hn _].
      destruct (thread_handle_tns_update_turn e s k Hpc) as [Hhigh Hlow].
      specialize (Hturns (S k) eq_refl). rewrite Hn.
      destruct (Z.le_gt_cases 12 (test_connection_fail s)) as [Hge|Hlt].
      * destruct (Hhigh Hge) as (-> & _ & ->). cbn.
        split; [done|]. split; [done|]. intros k' [= <-]. lia.
      * destruct (Hlow Hlt) as (-> & _ & ->). cbn.
        split; [done|]. split; [lia|]. intros k' Hk.
        destruct (_ =? 6); [discriminate|]. injection Hk as <-. lia.
    + unfold thread_handle_tns_update. rewrite Hpc.
      rewrite emitted_refl. cbn. rewrite Hpc. by repeat split.
  - destruct (step_other_thread_sched o s Ho) as (Hpc & _ & Hn & Hp & Hr).
    rewrite register_failures_skip, probes_since_skip by done.
    rewrite Hn, Hpc. by repeat split.
Qed.

Lemma schedule_inv_run_ops (ops : list op) (s : TelexITelexSrv) :
  run s = true -> address_inv s -> schedule_inv s ->
  address_inv (run_ops ops s) /\ schedule_inv (run_ops ops s).
Proof.
  revert s; induction ops as [|o ops IH]; intros s Hrun Ha Hs; [done|].
  simpl. apply IH; [by rewrite step_run | by apply address_inv_step
                   | by apply schedule_inv_step].
Qed.

Lemma schedule_inv_init (port number tns_pin : option Z) (s : TelexITelexSrv) :
  __init__ port number tns_pin = Ok s ->
  run s = true /\ address_inv s /\ schedule_inv s.
Proof.
  unfold __init__. destruct tns_pin as [pin|]; [|done].
  repeat case_match; intros [= <-]; cbn;
    (split; [done|]); (split; [split; cbn; [by repeat case_match|done]|]);
    unfold schedule_inv; cbn; repeat split; try done; try lia;
    intros k; repeat case_match; try discriminate; intros [= <-]; lia.
Qed.

Lemma run_ops_app (ops1 ops2 : list op) (s : TelexITelexSrv) :
  run_ops (ops1 ++ ops2) s = run_ops ops2 (run_ops ops1 s).
Proof. revert s; induction ops1 as [|o ops1 IH]; intros s; [done|]. apply IH. Qed.

Lemma in_registered (evs : list event) :
  In (EvRegister true) evs -> existsb is_registered evs = true.
Proof. intros H. apply existsb_exists. by exists (EvRegister true). Qed.

Lemma init_log_no_probe (port number tns_pin : option Z) (s : TelexITelexSrv) :
  __init__ port number tns_pin = Ok s -> existsb is_probe (log s) = false.
Proof.
  unfold __init__. destruct tns_pin as [pin|]; [|done].
  repeat case_match; by intros [= <-].
Qed.

(** Only a turn of the [for] loop probes. *)
Lemma probe_in_turn (e : sched_env) (s : TelexITelexSrv) :
  run s = true ->
  existsb is_probe (emitted s (thread_handle_tns_update e s)) = true ->
  exists k, sched s = InnerLoop (S k).
Proof.
  intros Hrun H. destruct (sched s) as [| |[|k]|] eqn:Hpc; [| | |by eexists|];
    exfalso.
  - unfold thread_handle_tns_update in H. rewrite Hpc in H.
    by rewrite emitted_refl in H.
  - destruct (thread_handle_tns_update_registers e s Hpc Hrun)
      as (pre & post & Hev & Hp1 & _ & Hp2 & _).
    rewrite Hev, existsb_app in H. cbn in H. by rewrite Hp1, Hp2 in H.
  - unfold thread_handle_tns_update in H. rewrite Hpc in H. cbn in H.
    by rewrite (emitted_app _ _ []) in H by by rewrite app_nil_r.
  - unfold thread_handle_tns_update in H. rewrite Hpc in H.
    by rewrite emitted_refl in H.
Qed.

(** X8: in every execution a probe is issued only with a known, non-empty
    own address, and only after a registration that succeeded: a log
    without a successful registration holds no probe. *)
Theorem probe_only_with_known_address
  (port number tns_pin : option Z) (s0 : TelexITelexSrv) (ops : list op) :
  __init__ port number tns_pin = Ok s0 ->
  let s := run_ops ops s0 in
  (forall e,
     existsb is_probe (emitted s (thread_handle_tns_update e s)) = true ->
     truthy_str (ip_address s) = true /\ In (EvRegister true) (log s)) /\
  (existsb is_registered (log s) = false -> existsb is_probe (log s) = false).
Proof.
  intros Hinit.
  destruct (schedule_inv_init _ _ _ _ Hinit) as (Hrun0 & Ha0 & Hs0).
  assert (Hstep : forall ops e,
    existsb is_probe (emitted (run_ops ops s0)
                        (thread_handle_tns_update e (run_ops ops s0))) = true ->
    truthy_str (ip_address (run_ops ops s0)) = true /\
    In (EvRegister true) (log (run_ops ops s0))).
  { intros ops' e H.
    destruct (schedule_inv_run_ops ops' s0 Hrun0 Ha0 Hs0) as [[Hin Hknown] _].
    destruct (probe_in_turn e (run_ops ops' s0)) as [k Hk];
      [by rewrite run_ops_run | done |].
    pose proof (Hin _ Hk). auto. }
  intros s. split; [apply Hstep|]. subst s.
  induction ops as [|o ops IH] using rev_ind.
  - intros _. by eapply init_log_no_probe.
  - rewrite run_ops_app. cbn [run_ops].
    rewrite step_extends, !existsb_app.
    intros [Hreg1 Hreg2]%orb_false_iff. rewrite (IH Hreg1). cbn.
    destruct (is_sched_op o) eqn:Ho.
    + destruct o; try discriminate.
      destruct (existsb is_probe
                  (emitted (run_ops ops s0) (step (OpSched e) (run_ops ops s0))))
        eqn:Hp; [|done].
      destruct (Hstep ops e Hp) as [_ Hin].
      apply in_registered in Hin. congruence.
    + by destruct (step_other_thread_sched o (run_ops ops s0) Ho)
        as (_ & _ & _ & -> & _).
Qed.

Lemma probe_only_with_known_address_witness :
  existsb is_probe
    (log (run_ops
            (replicate 3 (OpSched (mkEnv TnsRecvFails (ProbeSent true))))
            node))
  = false.
Proof.
  apply (probe_only_with_known_address None (Some 12345678) (Some 4321)
           node (replicate 3 (OpSched (mkEnv TnsRecvFails (ProbeSent true))))
           eq_refl).
  reflexivity.
Defined.

Lemma register_failures_nonneg (evs : list event) (n : Z) :
  0 <= n -> 0 <= foldl count_register_failure n evs.
Proof.
  revert n; induction evs as [|ev evs IH]; intros n Hn; [done|]. cbn.
  apply IH. destruct ev as [| | | | | | | |[]|]; cbn; lia.
Qed.

(** X9: in every execution [update_tns_fail] is the number of registration
    attempts that failed since the last one that succeeded (since the
    start, if none did); it is never negative. *)
Theorem update_tns_fail_counts_consecutive_failures
  (port number tns_pin : option Z) (s0 : TelexITelexSrv) (ops : list op) :
  __init__ port number tns_pin = Ok s0 ->
  let s := run_ops ops s0 in
  update_tns_fail s = register_failures (log s) /\ 0 <= update_tns_fail s.
Proof.
  intros Hinit s.
  destruct (schedule_inv_init _ _ _ _ Hinit) as (Hrun0 & Ha0 & Hs0).
  destruct (schedule_inv_run_ops ops s0 Hrun0 Ha0 Hs0) as [_ (Hn & _)].
  fold s in Hn. split; [done|]. rewrite Hn.
  by apply register_failures_nonneg.
Qed.

Lemma update_tns_fail_counts_consecutive_failures_witness :
  update_tns_fail
    (run_ops (replicate 3 (OpSched (mkEnv TnsConnectFails ProbeConnectFails)))
       node)
  = register_failures
      (log (run_ops
              (replicate 3 (OpSched (mkEnv TnsConnectFails ProbeConnectFails)))
              node)).
Proof.
  apply (update_tns_fail_counts_consecutive_failures None (Some 12345678)
           (Some 4321) node _ eq_refl).
Defined.

(** X10: in every execution at most 180 probes are issued between one
    registration attempt and the next. *)
Theorem at_most_180_probes_per_registration
  (port number tns_pin : option Z) (s0 : TelexITelexSrv) (ops : list op) :
  __init__ port number tns_pin = Ok s0 ->
  (probes_since_register (log (run_ops ops s0)) <= 180)%nat.
Proof.
  intros Hinit.
  destruct (schedule_inv_init _ _ _ _ Hinit) as (Hrun0 & Ha0 & Hs0).
  by destruct (schedule_inv_run_ops ops s0 Hrun0 Ha0 Hs0) as [_ (_ & ? & _)].
Qed.

Lemma at_most_180_probes_per_registration_witness :
  (probes_since_register
     (log (run_ops (replicate 200 (OpSched env_reachable)) node)) <= 180)%nat.
Proof.
  apply (at_most_180_probes_per_registration None (Some 12345678) (Some 4321)
           node _ eq_refl).
Defined.

(** X11: in every execution the failure counter of the self-test is a
    count from 0 to 12 or the marker 666, and when the scheduler is at the
    head of its loop, about to register, it is at most 6 or the marker. *)
Theorem test_connection_fail_range
  (port number tns_pin : option Z) (s0 : TelexITelexSrv) (ops : list op) :
  __init__ port number tns_pin = Ok s0 ->
  let s := run_ops ops s0 in
  (0 <= test_connection_fail s <= 12 \/ test_connection_fail s = 666) /\
  (sched s = LoopHead ->
   0 <= test_connection_fail s <= 6 \/ test_connection_fail s = 666).
Proof.
  intros Hinit s.
  destruct (inv_run_ops ops s0 (inv_init _ _ _ _ Hinit))
    as (_ & (Hrange & Hhigh & _) & _). fold s in Hrange, Hhigh.
  split; [done|]. intros Hpc.
  destruct Hrange as [Hr|Hr]; [|by right].
  destruct (Z.le_gt_cases (test_connection_fail s) 6); [left; lia|].
  assert (H7 : 7 <= test_connection_fail s <= 12) by lia.
  specialize (Hhigh H7). congruence.
Qed.

Lemma test_connection_fail_range_witness :
  0 <= test_connection_fail (run_ops twelve_failures node) <= 12 \/
  test_connection_fail (run_ops twelve_failures node) = 666.
Proof.
  apply (test_connection_fail_range None (Some 12345678) (Some 4321) node
           twelve_failures eq_refl).
Defined.

(** The step that takes the counter to 6 is a turn of the [for] loop. *)
Lemma counter_reaches_six (e : sched_env) (s : TelexITelexSrv) :
  run s = true ->
  test_connection_fail s <> 6 ->
  test_connection_fail (thread_handle_tns_update e s) = 6 ->
  exists k, sched s = InnerLoop (S k) /\
            sched (thread_handle_tns_update e s) = LoopHead.
Proof.
  intros Hrun Hbefore Hafter.
  destruct (sched s) as [| |[|k]|] eqn:Hpc.
  - unfold thread_handle_tns_update in Hafter. by rewrite Hpc in Hafter.
  - destruct (thread_handle_tns_update_head e s Hpc Hrun) as [Hc _].
    rewrite Hafter in Hc. destruct (_ && _); [done | by symmetry in Hc].
  - unfold thread_handle_tns_update in Hafter. by rewrite Hpc in Hafter.
  - destruct (thread_handle_tns_update_turn e s k Hpc) as [Hhigh Hlow].
    destruct (Z.le_gt_cases 12 (test_connection_fail s)) as [Hge|Hlt].
    + destruct (Hhigh Hge) as (_ & Hc & _). lia.
    + destruct (Hlow Hlt) as (_ & _ & Hs).
      rewrite Hafter in Hs. by exists k.
  - unfold thread_handle_tns_update in Hafter. by rewrite Hpc in Hafter.
Qed.

(** X12: in every execution, when the sixth failure has forced the
    registration and that registration fails too, the self-test goes on all
    the same: the counter stays at 6, the known address stays, the [for]
    loop begins anew with 180 turns, and its first turn probes. *)
Theorem probing_continues_after_failed_update
  (port number tns_pin : option Z) (s0 : TelexITelexSrv) (ops : list op)
  (e e' e'' : sched_env) :
  __init__ port number tns_pin = Ok s0 ->
  let s := run_ops ops s0 in
  let s1 := thread_handle_tns_update e s in
  test_connection_fail s <> 6 -> test_connection_fail s1 = 6 ->
  (update_tns_record (tns e') s1).1 = false ->
  let s2 := thread_handle_tns_update e' s1 in
  test_connection_fail s2 = 6 /\
  ip_address s2 = ip_address s /\
  truthy_str (ip_address s2) = true /\
  sched s2 = InnerLoop 180 /\
  emitted s2 (thread_handle_tns_update e'' s2)
    = [EvSleep 20; EvProbe (probe_confirmed (probe e''))].
Proof.
  intros Hinit s s1 Hbefore Hafter Hfail s2.
  destruct (schedule_inv_init _ _ _ _ Hinit) as (Hrun0 & Ha0 & Hs0).
  destruct (schedule_inv_run_ops ops s0 Hrun0 Ha0 Hs0) as [[Hin _] _].
  fold s in Hin.
  assert (Hrun : run s = true) by (unfold s; by rewrite run_ops_run).
  assert (Hrun1 : run s1 = true)
    by (unfold s1; by rewrite thread_handle_tns_update_run).
  destruct (counter_reaches_six e s Hrun Hbefore Hafter) as (k & Hpc & Hpc1).
  fold s1 in Hpc1.
  destruct (thread_handle_tns_update_turn_frame e s (S k) Hpc) as [_ Hip1].
  fold s1 in Hip1.
  destruct (thread_handle_tns_update_head e' s1 Hpc1 Hrun1) as [Hc2 Hs2].
  destruct (thread_handle_tns_update_head_counters e' s1 Hpc1 Hrun1)
    as [_ Hip2].
  fold s2 in Hc2, Hs2, Hip2.
  rewrite Hfail in Hc2. cbn in Hc2.
  rewrite (update_tns_record_ip _ _ Hfail), Hip1 in Hip2.
  assert (Htruthy : truthy_str (ip_address s2) = true)
    by (rewrite Hip2; by eapply Hin).
  rewrite Htruthy in Hs2.
  split; [congruence|]. split; [done|]. split; [done|]. split; [done|].
  destruct (thread_handle_tns_update_turn e'' s2 179 Hs2) as [_ Hlow].
  destruct Hlow as (Hev & _); [lia | done].
Qed.

Lemma probing_continues_after_failed_update_witness :
  let s := run_ops five_failures node in
  let s1 := thread_handle_tns_update env_unreachable s in
  let s2 := thread_handle_tns_update (mkEnv TnsRecvFails (ProbeSent false)) s1 in
  test_connection_fail s2 = 6 /\
  sched s2 = InnerLoop 180 /\
  emitted s2 (thread_handle_tns_update env_reachable s2)
    = [EvSleep 20; EvProbe true].
Proof.
  intros s s1 s2.
  assert (H5 : test_connection_fail s <> 6) by (vm_compute; discriminate).
  assert (H6 : test_connection_fail s1 = 6) by (vm_compute; reflexivity).
  assert (Hf : (update_tns_record TnsRecvFails s1).1 = false)
    by (vm_compute; reflexivity).
  destruct (probing_continues_after_failed_update None (Some 12345678)
              (Some 4321) node five_failures env_unreachable
              (mkEnv TnsRecvFails (ProbeSent false)) env_reachable
              eq_refl H5 H6 Hf) as (Hn & _ & _ & Hpc & Hev).
  split; [exact Hn|]. split; [exact Hpc | exact Hev].
Defined.

(** ** The address in the answer *)

Lemma str_reads_back (b : byte) :
  NilEmpty.uint_of_string (str b) = Some (N.to_uint (Byte.to_N b)).
Proof. unfold str. apply NilEmpty.usu. Qed.

(** X13: on an Address_confirm of length 4 the address is the four bytes
    behind the header, each in decimal, joined by dots; bytes beyond the
    sixth are ignored.  Each part reads back as the byte it renders. *)
Theorem address_confirm_renders_four_bytes (a b c d : byte) (rest : list byte) :
  address_confirm ([x02; x04; a; b; c; d] ++ rest)
    = Ok (str a +:+ "." +:+ str b +:+ "." +:+ str c +:+ "." +:+ str d) /\
  Forall (fun x => option_map N.of_uint (NilEmpty.uint_of_string (str x))
                   = Some (Byte.to_N x)) [a; b; c; d].
Proof.
  split; [reflexivity|].
  repeat constructor; rewrite str_reads_back; cbn;
    by rewrite DecimalN.Unsigned.of_to.
Qed.

(** X14: an Address_confirm that ends behind its header counts as a
    success, and the known address becomes the empty string: the
    registration counter is reset, and the scheduler, whatever address it
    knew before, sleeps for the hour and registers again without
    probing. *)
Theorem address_confirm_without_address
  (e : sched_env) (s : TelexITelexSrv) (qry : list byte) :
  sched s = LoopHead -> run s = true ->
  tns e = TnsAnswer [x02; x04] ->
  client_update_packet (_number s) (_tns_pin s) (_port s) = Ok qry ->
  let s' := thread_handle_tns_update e s in
  ip_address s' = Some ""%string /\
  update_tns_fail s' = 0 /\
  sched s' = LoopHead /\
  emitted s s' = [EvTnsQuery qry; EvRegister true; EvSleep 3600].
Proof.
  intros Hpc Hrun Htns Hqry s'. subst s'.
  unfold thread_handle_tns_update, update_tns_record, tns_attempt.
  assert (Hac : address_confirm [x02; x04] = Ok ""%string) by reflexivity.
  rewrite Hpc, Hrun, Htns. cbn -[client_update_packet address_confirm].
  rewrite Hqry. cbn -[address_confirm]. rewrite Hac. cbn.
  destruct (test_connection_fail s =? 666); cbn;
    repeat (split; [done|]); by emitted_by_log.
Qed.

Lemma address_confirm_without_address_witness :
  ip_address
    (thread_handle_tns_update (mkEnv (TnsAnswer [x02; x04]) (ProbeSent true))
       (run_ops (replicate 182 (OpSched env_reachable)) node))
  = Some ""%string.
Proof.
  apply (address_confirm_without_address
           (mkEnv (TnsAnswer [x02; x04]) (ProbeSent true))
           (run_ops (replicate 182 (OpSched env_reachable)) node)
           [x01; x08; x4e; x61; xbc; x00; xe1; x10; x26; x09]);
    reflexivity.
Defined.

(** ** The identity that the constructor accepts *)

(** X15: with an integer pin the constructor succeeds, and it starts the
    scheduler exactly when the number is in 1..0xffffffff and the pin in
    0..0xffff.  A started scheduler can always build its request, ten bytes
    long, provided the port fits into 16 bits: what the constructor lets
    pass, [to_bytes] does not refuse. *)
Theorem started_scheduler_encodes_its_identity
  (port number : option Z) (pin : Z) :
  exists s,
    __init__ port number (Some pin) = Ok s /\
    _port s = default 2342 port /\
    (sched s = LoopHead <->
     1 <= default 0 number <= 0xffffffff /\ 0 <= pin <= 0xffff) /\
    (sched s = LoopHead -> 0 <= _port s <= 0xffff ->
     _number s = Some (default 0 number) /\ _tns_pin s = Some pin /\
     exists qry,
       client_update_packet (_number s) (_tns_pin s) (_port s) = Ok qry /\
       length qry = 10%nat).
Proof.
  unfold __init__. set (n := default 0 number). set (p := default 2342 port).
  destruct (Z.ltb_spec pin 0) as [Hp1|Hp1];
    [|destruct (Z.gtb_spec pin 0xffff) as [Hp2|Hp2]];
    cbn [orb];
    [| |destruct (Z.leb_spec n 0) as [Hn1|Hn1];
        [|destruct (Z.gtb_spec n 0xffffffff) as [Hn2|Hn2]]];
    cbn [orb]; eexists; (split; [reflexivity|]); cbn;
    (split; [done|]).
  1-4: split; [split; [discriminate | lia] | discriminate].
  assert (Hn0 : (n =? 0) = false) by (apply Z.eqb_neq; lia).
  rewrite Hn0. cbn. split; [split; [lia | done]|].
  intros _ Hport. split; [done|]. split; [done|].
  destruct (to_bytes_fits n 4) as (bn & En & Ln & _); [simpl; lia|].
  destruct (to_bytes_fits pin 2) as (bp & Ep & Lp & _); [simpl; lia|].
  destruct (to_bytes_fits p 2) as (bq & Eq & Lq & _); [simpl; lia|].
  unfold client_update_packet, attr_to_bytes. rewrite En, Ep, Eq.
  cbn [mbind result_bind mret result_ret].
  exists ([x01; x08] ++ bn ++ bp ++ bq). split; [done|].
  rewrite !length_app, Ln, Lp, Lq. done.
Qed.

Lemma started_scheduler_encodes_its_identity_witness :
  exists s,
    __init__ None (Some 12345678) (Some 4321) = Ok s /\
    sched s = LoopHead /\
    exists qry,
      client_update_packet (_number s) (_tns_pin s) (_port s) = Ok qry /\
      length qry = 10%nat.
Proof.
  destruct (started_scheduler_encodes_its_identity None (Some 12345678) 4321)
    as (s & Hinit & Hport & Hstart & Hqry).
  exists s. split; [exact Hinit|].
  assert (Hpc : sched s = LoopHead) by (apply Hstart; cbn; lia).
  split; [exact Hpc|].
  apply Hqry; [exact Hpc | rewrite Hport; cbn; lia].
Defined.

(** X16: with an integer pin, a number outside 1..0xffffffff or a pin
    outside 0..0xffff leaves the scheduler thread unstarted for good, so
    that nothing ever registers or probes, while the acceptor runs: the
    first caller, from whatever address, is admitted and handed to a
    handler. *)
Theorem invalid_identity_disables_tns_only
  (port number : option Z) (pin : Z) (ops : list op) (c : connection) :
  ~ 1 <= default 0 number <= 0xffffffff \/ ~ 0 <= pin <= 0xffff ->
  exists s0,
    __init__ port number (Some pin) = Ok s0 /\
    log s0 = [EvThreadStart iTelexSaic] /\
    sched (run_ops ops s0) = NotStarted /\
    existsb is_register (emitted s0 (run_ops ops s0)) = false /\
    existsb is_probe (emitted s0 (run_ops ops s0)) = false /\
    clients (accept_turn c s0) = {[ 0%nat := client_address c ]} /\
    emitted s0 (accept_turn c s0) = [EvThreadStart (iTelexShc 0%nat)].
Proof.
  intros Hbad.
  destruct (init_invalid_identity port number pin ops Hbad)
    as (s0 & Hinit & Hlog & Hacc & _ & _ & Hpc & Hr & Hp).
  exists s0. repeat (split; [done|]).
  assert (Hfresh : run s0 = true /\ SERVER s0 = true /\ clients s0 = ∅ /\
                   ip_address s0 = None /\ next_sock s0 = 0%nat).
  { revert Hinit. unfold __init__. repeat case_match; by intros [= <-]. }
  destruct Hfresh as (Hrun & Hsrv & Hcl & Hip & Hnext).
  rewrite (accept_turn_accepts c s0 Hacc Hrun Hsrv).
  destruct (accept_connection_admit s0 c) as (Hl & Hc & _);
    [by rewrite Hip | done |].
  rewrite Hnext in Hl, Hc. split; [done|]. by apply emitted_app.
Qed.

Lemma invalid_identity_disables_tns_only_witness :
  exists s0,
    __init__ None (Some 0) (Some 70000) = Ok s0 /\
    log s0 = [EvThreadStart iTelexSaic] /\
    sched (run_ops [OpSched env_reachable; OpAccept caller] s0) = NotStarted /\
    existsb is_register
      (emitted s0 (run_ops [OpSched env_reachable; OpAccept caller] s0))
    = false /\
    existsb is_probe
      (emitted s0 (run_ops [OpSched env_reachable; OpAccept caller] s0))
    = false /\
    clients (accept_turn caller s0)
    = {[ 0%nat := client_address caller ]} /\
    emitted s0 (accept_turn caller s0) = [EvThreadStart (iTelexShc 0%nat)].
Proof.
  apply (invalid_identity_disables_tns_only None (Some 0) 70000
           [OpSched env_reachable; OpAccept caller] caller).
  left. cbn. lia.
Defined.

(** * The teleprinter on the GPIO pins *)

Section PiGPIO.

Import TelexPiGPIO.

Variable mc : Type.
Variable encodeA2BM : mc -> string -> list Z * mc.
Variable decodeBM2A : mc -> list Z -> string * mc.

Lemma serial_data_app (l l' : list hw) :
  serial_data (l ++ l') = serial_data l ++ serial_data l'.
Proof.
  induction l as [|e l IH]; [done|].
  destruct e; cbn; rewrite ?IH, <- ?app_assoc; done.
Qed.

Lemma waves_alive_app (n : Z) (l l' : list hw) :
  waves_alive n (l ++ l') = waves_alive (waves_alive n l) l'.
Proof. revert n; induction l as [|e l IH]; intros n; [done|]. destruct e; cbn; apply IH. Qed.

Lemma callbacks_alive_app (n : Z) (l l' : list hw) :
  callbacks_alive n (l ++ l') = callbacks_alive (callbacks_alive n l) l'.
Proof. revert n; induction l as [|e l IH]; intros n; [done|]. destruct e; cbn; apply IH. Qed.

(** What [_write_wave] does to the log of calls. *)
Lemma write_wave_calls (busy : bool) (new_wid : Z) (s : TelexPiGPIO mc) :
  let s' := _write_wave busy new_wid s in
  (s' = s /\ (_tx_buffer s = [] \/ busy = true)) \/
  (_tx_buffer s <> [] /\ busy = false /\
   _tx_buffer s' = [] /\ last_wid s' = Some new_wid /\
   _mc s' = _mc s /\ _rx_buffer s' = _rx_buffer s /\ _cb s' = _cb s /\
   _pulse_dial_count s' = _pulse_dial_count s /\
   pi s' = pi s ++
     [wave_add_generic (Z.shiftl 1 (_pin_rts s)) 0 10;
      wave_add_serial (_pin_txd s) (_baudrate s) (_tx_buffer s) 0 5 3;
      wave_add_generic 0 (Z.shiftl 1 (_pin_rts s)) 10;
      wave_create new_wid; wave_send_once new_wid] ++
     match last_wid s with Some wid => [wave_delete wid] | None => [] end).
Proof.
  unfold _write_wave.
  destruct (_tx_buffer s) as [|b tx] eqn:Htx; [left; auto|].
  destruct busy; [left; auto|]. right.
  destruct (last_wid s) eqn:Hw; cbn; rewrite ?Htx, ?Hw; cbn;
    rewrite <- ?app_assoc; repeat split; done.
Qed.

Lemma write_wave_keeps_codes (busy : bool) (new_wid : Z) (s : TelexPiGPIO mc) :
  let s' := _write_wave busy new_wid s in
  serial_data (pi s') ++ _tx_buffer s' = serial_data (pi s) ++ _tx_buffer s /\
  _mc s' = _mc s.
Proof.
  destruct (write_wave_calls busy new_wid s)
    as [[-> _]|(_ & _ & Htx & _ & Hmc & _ & _ & _ & Hpi)]; [done|].
  cbn zeta. rewrite Htx, Hpi, Hmc, !serial_data_app.
  destruct (last_wid s); cbn; by rewrite !app_nil_r.
Qed.

Lemma invoke_keeps_codes (i : invocation) (s : TelexPiGPIO mc) :
  serial_data (pi (invoke encodeA2BM decodeBM2A i s)) ++ _tx_buffer (invoke encodeA2BM decodeBM2A i s)
  = serial_data (pi s) ++ _tx_buffer s ++ encoded encodeA2BM decodeBM2A (_mc s) [i] /\
  forall rest, encoded encodeA2BM decodeBM2A (_mc s) (i :: rest)
               = encoded encodeA2BM decodeBM2A (_mc s) [i] ++ encoded encodeA2BM decodeBM2A (_mc (invoke encodeA2BM decodeBM2A i s)) rest.
Proof.
  destruct i as [busy w a src|busy w|count data|enable|gpio level tick];
    cbn [TelexPiGPIO.invoke TelexPiGPIO.encoded].
  - unfold write. destruct (negb (String.length a =? 1)%nat).
    { by rewrite !app_nil_r. }
    destruct (encodeA2BM (_mc s) a) as [bb m] eqn:He.
    destruct bb as [|b bb].
    + cbn. by rewrite !app_nil_r.
    + match goal with
      | |- context [_write_wave busy w ?x] =>
          destruct (write_wave_keeps_codes busy w x) as [Hk Hm]
      end.
      cbn zeta in Hk, Hm. rewrite Hk, Hm. cbn. by rewrite !app_nil_r.
  - unfold idle. destruct (_tx_buffer s) eqn:Htx.
    { rewrite Htx. by rewrite !app_nil_r. }
    destruct (write_wave_keeps_codes busy w s) as [Hk Hm].
    cbn zeta in Hk, Hm. rewrite Hk, Hm, Htx. by rewrite !app_nil_r.
  - unfold read. destruct (count =? 0).
    { destruct (_rx_buffer s); cbn; by rewrite !app_nil_r. }
    destruct (decodeBM2A (_mc s) data) as [a m]. cbn.
    destruct (String.eqb a ""); cbn;
      repeat (match goal with |- context [match ?l with [] => _ | _ => _ end]
              => destruct l end; cbn); by rewrite !app_nil_r.
  - unfold enable_pulse_dial.
    destruct (_cb s), enable; cbn; rewrite ?serial_data_app; cbn;
      by rewrite !app_nil_r.
  - unfold _callback_pulse_dial. repeat case_match; cbn; by rewrite !app_nil_r.
Qed.

(** X17: over every sequence of calls of [write], [idle], [read] and the
    dialling, whatever pigpio answers, the codes handed to pigpio as
    serial waveforms followed by those still in the tx buffer are the codes
    that were there followed by what the coder made of the single
    characters written, in the order written: no code is lost, doubled or
    moved.  Inputs that are not a single character add nothing. *)
Theorem no_code_lost (invs : list invocation) (s : TelexPiGPIO mc) :
  serial_data (pi (run encodeA2BM decodeBM2A invs s)) ++ _tx_buffer (run encodeA2BM decodeBM2A invs s)
  = serial_data (pi s) ++ _tx_buffer s ++ encoded encodeA2BM decodeBM2A (_mc s) invs.
Proof.
  revert s; induction invs as [|i invs IH]; intros s.
  - cbn. by rewrite !app_nil_r.
  - cbn [TelexPiGPIO.run]. rewrite IH.
    destruct (invoke_keeps_codes i s) as [Hi Hrest].
    rewrite (Hrest invs), !app_assoc. f_equal.
    rewrite <- !app_assoc. exact Hi.
Qed.

Lemma tidy_write_wave (busy : bool) (w : Z) (s : TelexPiGPIO mc) :
  tidy s -> tidy (_write_wave busy w s).
Proof.
  intros (Hw & Hc & He).
  destruct (write_wave_calls busy w s)
    as [[-> _]|(Hne & _ & _ & Hlast & _ & _ & Hcb & _ & Hpi)]; [done|].
  unfold tidy. cbn zeta.
  rewrite Hpi, Hlast, Hcb, waves_alive_app, callbacks_alive_app,
    forallb_app, Hw, Hc, He.
  destruct (last_wid s), (_tx_buffer s); cbn; try done;
    repeat split; try lia; by destruct (_cb s).
Qed.

Lemma tidy_same (s s' : TelexPiGPIO mc) :
  pi s' = pi s -> last_wid s' = last_wid s -> _cb s' = _cb s ->
  tidy s -> tidy s'.
Proof. unfold tidy. by intros -> -> ->. Qed.

Lemma tidy_invoke (i : invocation) (s : TelexPiGPIO mc) :
  tidy s -> tidy (invoke encodeA2BM decodeBM2A i s).
Proof.
  destruct i as [busy w a src|busy w|count data|enable|gpio level tick];
    cbn [TelexPiGPIO.invoke].
  - unfold write. destruct (negb _); [done|].
    destruct (encodeA2BM (_mc s) a) as [[|b bb] m]; [done|].
    intros H. by apply tidy_write_wave.
  - unfold idle. destruct (_tx_buffer s) eqn:Htx; [done|].
    intros H. by apply tidy_write_wave.
  - apply tidy_same; unfold read; repeat case_match; done.
  - unfold enable_pulse_dial, tidy. intros (Hw & Hc & He).
    destruct (_cb s) eqn:Hcb, enable; cbn in *;
      rewrite ?waves_alive_app, ?callbacks_alive_app, ?forallb_app;
      cbn; rewrite ?waves_alive_app, ?callbacks_alive_app, ?forallb_app;
      cbn; rewrite ?Hw, ?Hc, ?He, ?Hcb; repeat split; try done; lia.
  - apply tidy_same; unfold _callback_pulse_dial; repeat case_match; done.
Qed.

(** X18: over every sequence of calls, whatever pigpio answers, the device
    keeps its bookkeeping: of the waveforms created all but the last are
    deleted, a callback is registered exactly when [_cb] says so (enabling
    twice cancels the first), and no serial waveform is added without
    data.  [enable_pulse_dial] leaves [_cb] as its argument says. *)
Theorem waveforms_and_callback_tidy
  (invs : list invocation) (s : TelexPiGPIO mc) :
  tidy s ->
  tidy (TelexPiGPIO.run encodeA2BM decodeBM2A invs s) /\
  forall enable, _cb (enable_pulse_dial enable s) = enable.
Proof.
  intros H. split.
  - revert s H; induction invs as [|i invs IH]; intros s H; [done|].
    cbn [TelexPiGPIO.run]. by apply IH, tidy_invoke.
  - intros enable. unfold enable_pulse_dial.
    destruct (_cb s) eqn:Hcb, enable; cbn; rewrite ?Hcb; reflexivity.
Qed.

Lemma run_pulses (n : nat) (gpio : Z) (s : TelexPiGPIO mc) :
  let s' := TelexPiGPIO.run encodeA2BM decodeBM2A (pulses n gpio) s in
  _pulse_dial_count s' = _pulse_dial_count s + Z.of_nat n /\
  _rx_buffer s' = _rx_buffer s /\ _tx_buffer s' = _tx_buffer s /\
  pi s' = pi s.
Proof.
  unfold pulses. revert s; induction n as [|n IH]; intros s.
  - cbn. repeat split; lia.
  - cbn [replicate TelexPiGPIO.run TelexPiGPIO.invoke].
    destruct (IH (_callback_pulse_dial gpio 0 0 s)) as (Hc & Hrx & Htx & Hpi).
    cbn zeta. rewrite Hc, Hrx, Htx, Hpi. cbn. repeat split; lia.
Qed.

(** The timeout after [n] falling edges from a count of 0. *)
Lemma pulse_dial_buffer (n : nat) (gpio tick : Z) (s : TelexPiGPIO mc) :
  _pulse_dial_count s = 0 ->
  let s' := _callback_pulse_dial gpio TIMEOUT tick
              (TelexPiGPIO.run encodeA2BM decodeBM2A (pulses n gpio) s) in
  _pulse_dial_count s' = 0 /\
  _rx_buffer s' =
    _rx_buffer s
    ++ chars (str_int (if (n =? 10)%nat then 0 else Z.of_nat n)).
Proof.
  intros H0.
  destruct (run_pulses n gpio s) as (Hc & Hrx & _).
  cbn zeta in Hc, Hrx. rewrite H0, Z.add_0_l in Hc.
  set (s1 := TelexPiGPIO.run encodeA2BM decodeBM2A (pulses n gpio) s) in *.
  clearbody s1. intros s'. subst s'.
  unfold _callback_pulse_dial. rewrite Z.eqb_refl, Hc.
  split; [done|].
  destruct (Nat.eqb_spec n 10) as [->|Hn].
  - change (Z.of_nat 10 =? 10) with true.
    cbn [_rx_buffer _pulse_dial_count set__pulse_dial_count set__rx_buffer].
    by rewrite Hrx.
  - destruct (Z.eqb_spec (Z.of_nat n) 10); [lia|].
    cbn [_rx_buffer _pulse_dial_count set__pulse_dial_count set__rx_buffer].
    by rewrite Hrx, Hc.
Qed.

(** X19: [n] falling edges from a count of 0 and then the timeout of the
    watchdog append to the rx buffer the decimal digits of [n], one entry
    per digit, where ten edges count as 0, and reset the count: one entry
    with the digit for 1 to 9 edges, the entry 0 for ten edges and also for
    a timeout without any edge. *)
Theorem pulse_dial_appends_digits
  (n : nat) (gpio tick : Z) (s : TelexPiGPIO mc) :
  _pulse_dial_count s = 0 ->
  let s' := _callback_pulse_dial gpio TIMEOUT tick
              (TelexPiGPIO.run encodeA2BM decodeBM2A (pulses n gpio) s) in
  _pulse_dial_count s' = 0 /\
  _rx_buffer s' =
    _rx_buffer s
    ++ chars (str_int (if (n =? 10)%nat then 0 else Z.of_nat n)) /\
  ((1 <= n <= 9)%nat ->
   _rx_buffer s' =
     _rx_buffer s ++ [String (Ascii.ascii_of_nat (48 + n)) EmptyString]) /\
  (n = 0%nat \/ n = 10%nat -> _rx_buffer s' = _rx_buffer s ++ ["0"%string]).
Proof.
  intros H0 s'.
  destruct (pulse_dial_buffer n gpio tick s H0) as (Hc & Hbuf).
  fold s' in Hc, Hbuf. split; [done|]. split; [done|].
  rewrite Hbuf. split.
  - intros Hn.
    assert (n = 1 \/ n = 2 \/ n = 3 \/ n = 4 \/ n = 5 \/ n = 6 \/ n = 7 \/
            n = 8 \/ n = 9)%nat as Hcases by lia.
    repeat (destruct Hcases as [->|Hcases]; [reflexivity|]).
    by subst.
  - by intros [->| ->].
Qed.

(** X20: a digit dialled with 1 to 9 pulses into an empty rx buffer is
    what the next [read] returns when no serial data has come in, and the
    buffer is empty again. *)
Theorem dialled_digit_is_read
  (n : nat) (gpio tick : Z) (data : list Z) (s : TelexPiGPIO mc) :
  (1 <= n <= 9)%nat ->
  _pulse_dial_count s = 0 -> _rx_buffer s = [] ->
  let s' := _callback_pulse_dial gpio TIMEOUT tick
              (TelexPiGPIO.run encodeA2BM decodeBM2A (pulses n gpio) s) in
  (TelexPiGPIO.read decodeBM2A 0 data s').1
    = String (Ascii.ascii_of_nat (48 + n)) EmptyString /\
  _rx_buffer (TelexPiGPIO.read decodeBM2A 0 data s').2 = [] /\
  (TelexPiGPIO.read decodeBM2A 0 data
     (TelexPiGPIO.read decodeBM2A 0 data s').2).1 = ""%string.
Proof.
  intros Hn H0 Hempty s'.
  destruct (pulse_dial_buffer n gpio tick s H0) as (_ & Hbuf).
  fold s' in Hbuf. rewrite Hempty in Hbuf.
  assert (Hdigit : _rx_buffer s'
                   = [String (Ascii.ascii_of_nat (48 + n)) EmptyString]).
  { rewrite Hbuf.
    assert (n = 1 \/ n = 2 \/ n = 3 \/ n = 4 \/ n = 5 \/ n = 6 \/ n = 7 \/
            n = 8 \/ n = 9)%nat as Hcases by lia.
    repeat (destruct Hcases as [->|Hcases]; [reflexivity|]).
    by subst. }
  clearbody s'. unfold TelexPiGPIO.read. cbn [Z.eqb]. rewrite Hdigit. done.
Qed.

End PiGPIO.

Lemma waveforms_and_callback_tidy_witness :
  TelexPiGPIO.tidy
    (TelexPiGPIO.run TelexPiGPIO.code_points TelexPiGPIO.no_decoder
       [TelexPiGPIO.Write true 0 "A" "<"; TelexPiGPIO.Write false 1 "B" "<";
        TelexPiGPIO.EnablePulseDial true; TelexPiGPIO.EnablePulseDial true;
        TelexPiGPIO.Write false 2 "C" "<"]
       TelexPiGPIO.idle_device).
Proof.
  apply (waveforms_and_callback_tidy unit TelexPiGPIO.code_points
           TelexPiGPIO.no_decoder).
  repeat split.
Defined.

Lemma pulse_dial_appends_digits_witness :
  TelexPiGPIO._rx_buffer
    (TelexPiGPIO._callback_pulse_dial 27 TelexPiGPIO.TIMEOUT 0
       (TelexPiGPIO.run TelexPiGPIO.code_points TelexPiGPIO.no_decoder
          (TelexPiGPIO.pulses 7 27) TelexPiGPIO.idle_device))
  = ["7"%string].
Proof.
  apply (pulse_dial_appends_digits unit TelexPiGPIO.code_points
           TelexPiGPIO.no_decoder 7 27 0 TelexPiGPIO.idle_device eq_refl).
  lia.
Defined.

Lemma dialled_digit_is_read_witness :
  (TelexPiGPIO.read TelexPiGPIO.no_decoder 0 []
     (TelexPiGPIO._callback_pulse_dial 27 TelexPiGPIO.TIMEOUT 0
        (TelexPiGPIO.run TelexPiGPIO.code_points TelexPiGPIO.no_decoder
           (TelexPiGPIO.pulses 3 27) TelexPiGPIO.idle_device))).1
  = "3"%string.
Proof.
  apply (dialled_digit_is_read unit TelexPiGPIO.code_points
           TelexPiGPIO.no_decoder 3 27 0 [] TelexPiGPIO.idle_device);
    [lia | reflexivity | reflexivity].
Defined.
